(** * kv-cal-agent: conflict detection and the agent graph

    A shallow embedding of the calendar agent's TypeScript sources:

    - [Schema]   the [events] table of [src/db/schema.ts];
    - [Conflict] the conflict-detection subgraph of [src/conflict.ts];
    - [Tools]    the tool catalog of [src/tools.ts];
    - [Agent]    the agent graph of [src/agent.ts].

    Instants ([Date]) are integers (milliseconds since the epoch), numbers
    that the code uses as identifiers are integers, and an optional or
    nullable value is an [option].  A call that suspends on the storage is a
    function of the [database] returning a [result] and the [database]
    afterwards; a JavaScript exception is the [Throw] result. *)

From Stdlib Require Import List ZArith String Ascii Bool Lia DecimalString
  DecimalNat.
Import ListNotations.

Local Open Scope list_scope.
Local Open Scope Z_scope.
Local Open Scope string_scope.

(* ================================================================== *)
(** ** JavaScript values, exceptions and the storage monad *)

Module Js.

(** What a [catch (error)] clause can receive: an [Error] object with its
    [message], or any other thrown value. *)
Inductive exn : Type :=
| Error (message : string)
| Thrown.

(** [error instanceof Error ? error.message : 'Unknown error'] *)
Definition error_message (error : exn) : string :=
  match error with
  | Error message => message
  | Thrown => "Unknown error"
  end.

Inductive result (A : Type) : Type :=
| Ok (a : A)
| Throw (e : exn).
Arguments Ok {A} a.
Arguments Throw {A} e.

Definition empty : string := EmptyString.
Definition newline : string := String "010"%char EmptyString.
Definition quote : string := String "034"%char EmptyString.

(** Truthiness of a [string | null] value: [null] and the empty string are
    falsy. *)
Definition truthy_string (s : option string) : bool :=
  match s with
  | Some EmptyString => false
  | Some (String _ _) => true
  | None => false
  end.

(** Truthiness of a [number | undefined] value: [undefined] and [0] are
    falsy. *)
Definition truthy_number (n : option Z) : bool :=
  match n with
  | Some x => negb (x =? 0)%Z
  | None => false
  end.

(** Template interpolation of an array length. *)
Definition string_of_length (n : nat) : string :=
  NilZero.string_of_uint (Nat.to_uint n).

End Js.

(* ================================================================== *)
(** ** The stored events (src/db/schema.ts) *)

Definition Date : Type := Z.

Module Schema.

(** A row of [pgTable('events', ...)]; [text] columns without [notNull()]
    are nullable. *)
Record events : Type := Build_events {
  id : Z;
  title : string;
  description : option string;
  startTime : Date;
  endTime : Date;
  location : option string;
  eventTypeId : Z;
  isAllDay : bool;
  isRecurring : bool;
  recurrenceRule : option string;
  createdAt : Date;
  updatedAt : Date
}.

End Schema.

(** The storage as the code under study sees it: the rows of the [events]
    table when the driver answers, or the error the driver raises on every
    access. *)
Inductive database : Type :=
| Connected (rows : list Schema.events)
| Unavailable (error : Js.exn).

(** A computation that awaits the storage. *)
Definition Db (A : Type) : Type := database -> Js.result A * database.

Definition ret {A : Type} (a : A) : Db A := fun db => (Js.Ok a, db).

Definition throw {A : Type} (e : Js.exn) : Db A := fun db => (Js.Throw e, db).

Definition bind {A B : Type} (m : Db A) (k : A -> Db B) : Db B :=
  fun db =>
    match m db with
    | (Js.Ok a, db') => k a db'
    | (Js.Throw e, db') => (Js.Throw e, db')
    end.

(** [try { body } catch (error) { return handler(error) }] *)
Definition try_catch {A : Type} (body : Db A) (handler : Js.exn -> A) : Db A :=
  fun db =>
    match body db with
    | (Js.Ok a, db') => (Js.Ok a, db')
    | (Js.Throw e, db') => (Js.Ok (handler e), db')
    end.

Notation "x <- m ;; k" := (bind m (fun x => k))
  (at level 61, m at next level, right associativity).

(** The host's rendering of an instant, [Date.prototype.toLocaleString]:
    it depends on the locale and time zone of the process. *)
Class Locale : Type := { toLocaleString : Date -> string }.

(* ================================================================== *)
(** ** Conflict detection (src/conflict.ts) *)

Module Conflict.

(** The columns the query mentions and the drizzle operators it uses. *)
Inductive column : Type := events_id | events_startTime | events_endTime.

Definition column_value (c : column) (row : Schema.events) : Z :=
  match c with
  | events_id => Schema.id row
  | events_startTime => Schema.startTime row
  | events_endTime => Schema.endTime row
  end.

Inductive condition : Type :=
| gte (c : column) (v : Z)
| lte (c : column) (v : Z)
| ne (c : column) (v : Z).

Definition holds (row : Schema.events) (cond : condition) : bool :=
  match cond with
  | gte c v => (v <=? column_value c row)%Z
  | lte c v => (column_value c row <=? v)%Z
  | ne c v => negb (column_value c row =? v)%Z
  end.

(** [and(...conditions)] *)
Definition and_ (conditions : list condition) (row : Schema.events) : bool :=
  forallb (holds row) conditions.

(** The object selected for each conflicting event. *)
Module Event.
Record t : Type := make {
  id : Z;
  title : string;
  startTime : Date;
  endTime : Date;
  location : option string
}.
End Event.

Definition select (row : Schema.events) : Event.t :=
  {| Event.id := Schema.id row;
     Event.title := Schema.title row;
     Event.startTime := Schema.startTime row;
     Event.endTime := Schema.endTime row;
     Event.location := Schema.location row |}.

(** [db.select({...}).from(events).where(filter)] *)
Definition select_from_events (where_ : Schema.events -> bool)
  : Db (list Event.t) :=
  fun db =>
    match db with
    | Connected rows => (Js.Ok (map select (filter where_ rows)), db)
    | Unavailable error => (Js.Throw error, db)
    end.

(** What the [check] node returns, and what [detectConflicts] returns. *)
Module Out.
Record t : Type := make {
  conflicts : list Event.t;
  hasConflicts : bool;
  message : string
}.
End Out.

Record ConflictState : Type := Build_ConflictState {
  startTime : Date;
  endTime : Date;
  excludeEventId : option Z;
  conflicts : list Event.t;
  hasConflicts : bool;
  message : string
}.

Section WithLocale.
Context {locale : Locale}.

(** The query's conditions: the two comparisons, with the operators [gte]
    and [lte] of the code (its comment words the overlap with [<] and [>]),
    and the exclusion when [excludeEventId] is truthy. *)
Definition conditions (state : ConflictState) : list condition :=
  let conditions :=
    [ gte events_endTime (startTime state);
      lte events_startTime (endTime state) ] in
  match excludeEventId state with
  | Some excluded =>
      if Js.truthy_number (Some excluded)
      then (conditions ++ [ ne events_id excluded ])%list
      else conditions
  | None => conditions
  end.

(** One turn of the [forEach] callback: the message after [event]. *)
Definition append_event (message : string) (event : Event.t) : string :=
  let message :=
    message ++ "  - " ++ Js.quote ++ Event.title event ++ Js.quote
            ++ " (" ++ toLocaleString (Event.startTime event)
            ++ " - " ++ toLocaleString (Event.endTime event) ++ ")" in
  let message :=
    match Event.location event with
    | Some location =>
        if Js.truthy_string (Some location)
        then message ++ " at " ++ location
        else message
    | None => message
    end in
  message ++ Js.newline.

Definition render (conflictingEvents : list Event.t) (hasConflicts : bool)
  : string :=
  if hasConflicts
  then fold_left append_event conflictingEvents
         ("⚠️  Found " ++ Js.string_of_length (List.length conflictingEvents)
                       ++ " conflicting event(s):" ++ Js.newline)
  else "✓ No conflicts found".

(** The [check] node. *)
Definition checkConflicts (state : ConflictState) : Db Out.t :=
  conflictingEvents <- select_from_events (and_ (conditions state)) ;;
  let hasConflicts := (0 <? List.length conflictingEvents)%nat in
  let message := render conflictingEvents hasConflicts in
  ret {| Out.conflicts := conflictingEvents;
         Out.hasConflicts := hasConflicts;
         Out.message := message |}.

(** [conflictDetectionGraph.invoke(input)]: the graph has the single
    node [check] between [__start__] and [END]; the keys the node returns
    replace the input's, the other keys keep their value. *)
Definition conflictDetectionGraph_invoke (input : ConflictState)
  : Db ConflictState :=
  update <- checkConflicts input ;;
  ret {| startTime := startTime input;
         endTime := endTime input;
         excludeEventId := excludeEventId input;
         conflicts := Out.conflicts update;
         hasConflicts := Out.hasConflicts update;
         message := Out.message update |}.

Definition detectConflicts (startTime endTime : Date)
    (excludeEventId : option Z) : Db Out.t :=
  result <- conflictDetectionGraph_invoke
              {| startTime := startTime;
                 endTime := endTime;
                 excludeEventId := excludeEventId;
                 conflicts := [];
                 hasConflicts := false;
                 message := Js.empty |} ;;
  ret {| Out.hasConflicts := hasConflicts result;
         Out.conflicts := conflicts result;
         Out.message := message result |}.

End WithLocale.

End Conflict.

(* ================================================================== *)
(** ** Tool arguments and their schemas *)

Module Json.

Inductive value : Type :=
| str (s : string)
| num (n : Z)
| boolean (b : bool).

(** The argument mapping of a tool call. *)
Definition object : Type := list (string * value).

Fixpoint get (key : string) (o : object) : option value :=
  match o with
  | [] => None
  | (k, v) :: rest => if (k =? key)%string then Some v else get key rest
  end.

End Json.

Module Zod.

Inductive type : Type :=
| string_
| number
| boolean
| enum (options : list string).

Record field : Type := Build_field {
  key : string;
  type_ : type;
  optional : bool
}.

Definition required (k : string) (t : type) : field :=
  {| key := k; type_ := t; optional := false |}.

Definition optional_ (k : string) (t : type) : field :=
  {| key := k; type_ := t; optional := true |}.

Definition accepts (t : type) (v : Json.value) : bool :=
  match t, v with
  | string_, Json.str _ => true
  | number, Json.num _ => true
  | boolean, Json.boolean _ => true
  | enum options, Json.str s => existsb (String.eqb s) options
  | _, _ => false
  end.

Definition field_ok (input : Json.object) (f : field) : bool :=
  match Json.get (key f) input with
  | Some v => accepts (type_ f) v
  | None => optional f
  end.

(** [z.object({...}).safeParse(input).success] *)
Definition object_ok (fields : list field) (input : Json.object) : bool :=
  forallb (field_ok input) fields.

(** The parsed object: the keys the schema declares. *)
Definition strip (fields : list field) (input : Json.object) : Json.object :=
  filter (fun entry => existsb (fun f => (key f =? fst entry)%string) fields)
         input.

End Zod.

(** What the host and the libraries contribute to a tool call. *)
Class Host : Type := {
  (** [new Date(s)] for a string [s]: [None] is the Invalid Date. *)
  Date_parse : string -> option Date;
  (** What the storage driver raises when asked to encode an Invalid Date. *)
  invalid_time_value : Js.exn;
  (** What a tool raises when its input does not match its schema. *)
  ToolInputParsingException : Js.exn
}.

(* ================================================================== *)
(** ** The tool catalog (src/tools.ts) *)

Module Tools.

(** A tool made by [tool(func, { name, description, schema })]: [parse]
    is the schema's validation of the raw arguments. *)
Record StructuredTool : Type := Build_StructuredTool {
  name : string;
  Input : Type;
  parse : Json.object -> option Input;
  func : Input -> Db string
}.

(** [tool.invoke(args)]: the input is validated, then [func] runs. *)
Definition invoke {host : Host} (t : StructuredTool) (args : Json.object)
  : Db string :=
  match parse t args with
  | Some input => func t input
  | None => throw ToolInputParsingException
  end.

(** The statements inside the [try] block of each tool that only reads or
    writes the storage through the driver; they return the tool's text or
    raise what the driver raises. *)
Class Storage : Type := {
  try_createEventType : Json.object -> Db string;
  try_listEventTypes : Json.object -> Db string;
  try_createEvent : Json.object -> Db string;
  try_getEvent : Json.object -> Db string;
  try_listEvents : Json.object -> Db string;
  try_updateEvent : Json.object -> Db string;
  try_deleteEvent : Json.object -> Db string;
  try_addAttendee : Json.object -> Db string;
  try_updateAttendeeStatus : Json.object -> Db string;
  try_removeAttendee : Json.object -> Db string;
  try_listEventAttendees : Json.object -> Db string;
  try_createReminder : Json.object -> Db string;
  try_listReminders : Json.object -> Db string;
  try_markReminderSent : Json.object -> Db string
}.

(** [catch (error) { return `<label>: ${error instanceof Error ?
    error.message : 'Unknown error'}` }] *)
Definition catch_as (label : string) (error : Js.exn) : string :=
  label ++ ": " ++ Js.error_message error.

(** A tool whose input is the validated argument object. *)
Definition object_tool (name : string) (schema : list Zod.field)
    (func : Json.object -> Db string) : StructuredTool :=
  {| name := name;
     Input := Json.object;
     parse := fun args =>
       if Zod.object_ok schema args
       then Some (Zod.strip schema args)
       else None;
     func := func |}.

(** The validated input of the conflict detection tool. *)
Module CheckArgs.
Record t : Type := make {
  startTime : string;
  endTime : string;
  excludeEventId : option Z
}.
End CheckArgs.

Section WithHost.
Context {locale : Locale} {host : Host} {storage : Storage}.

(* ------------- conflict detection tool ------------- *)

Definition checkEventConflicts_schema : list Zod.field :=
  [ Zod.required "startTime" Zod.string_;
    Zod.required "endTime" Zod.string_;
    Zod.optional_ "excludeEventId" Zod.number ].

Definition checkEventConflicts_parse (args : Json.object)
  : option CheckArgs.t :=
  if Zod.object_ok checkEventConflicts_schema args then
    match Json.get "startTime" args, Json.get "endTime" args with
    | Some (Json.str startTime), Some (Json.str endTime) =>
        Some {| CheckArgs.startTime := startTime;
                CheckArgs.endTime := endTime;
                CheckArgs.excludeEventId :=
                  match Json.get "excludeEventId" args with
                  | Some (Json.num n) => Some n
                  | _ => None
                  end |}
    | _, _ => None
    end
  else None.

(** [new Date(s)] handed to the query: an Invalid Date makes the driver
    raise as soon as the query is built, before any row is read. *)
Definition new_Date (s : string) : Db Date :=
  match Date_parse s with
  | Some instant => ret instant
  | None => throw invalid_time_value
  end.

Definition checkEventConflicts_func (input : CheckArgs.t) : Db string :=
  try_catch
    (startTime <- new_Date (CheckArgs.startTime input) ;;
     endTime <- new_Date (CheckArgs.endTime input) ;;
     result <- Conflict.detectConflicts startTime endTime
                 (CheckArgs.excludeEventId input) ;;
     ret (Conflict.Out.message result))
    (catch_as "Error checking conflicts").

Definition checkEventConflicts : StructuredTool :=
  {| name := "check_event_conflicts";
     Input := CheckArgs.t;
     parse := checkEventConflicts_parse;
     func := checkEventConflicts_func |}.

(* ------------- event type tools ------------- *)

Definition createEventType : StructuredTool :=
  object_tool "create_event_type"
    [ Zod.required "name" Zod.string_;
      Zod.required "color" Zod.string_;
      Zod.optional_ "description" Zod.string_ ]
    (fun input =>
       try_catch (try_createEventType input)
         (catch_as "Error creating event type")).

Definition listEventTypes : StructuredTool :=
  object_tool "list_event_types" []
    (fun input =>
       try_catch (try_listEventTypes input)
         (catch_as "Error listing event types")).

(* ------------- event tools ------------- *)

Definition createEvent : StructuredTool :=
  object_tool "create_event"
    [ Zod.required "title" Zod.string_;
      Zod.optional_ "description" Zod.string_;
      Zod.required "startTime" Zod.string_;
      Zod.required "endTime" Zod.string_;
      Zod.optional_ "location" Zod.string_;
      Zod.required "eventTypeId" Zod.number;
      Zod.optional_ "isAllDay" Zod.boolean;
      Zod.optional_ "isRecurring" Zod.boolean;
      Zod.optional_ "recurrenceRule" Zod.string_ ]
    (fun input =>
       try_catch (try_createEvent input)
         (catch_as "Error creating event")).

Definition getEvent : StructuredTool :=
  object_tool "get_event"
    [ Zod.required "eventId" Zod.number ]
    (fun input =>
       try_catch (try_getEvent input) (catch_as "Error getting event")).

Definition listEvents : StructuredTool :=
  object_tool "list_events"
    [ Zod.optional_ "startDate" Zod.string_;
      Zod.optional_ "endDate" Zod.string_;
      Zod.optional_ "eventTypeId" Zod.number ]
    (fun input =>
       try_catch (try_listEvents input) (catch_as "Error listing events")).

Definition updateEvent : StructuredTool :=
  object_tool "update_event"
    [ Zod.required "eventId" Zod.number;
      Zod.optional_ "title" Zod.string_;
      Zod.optional_ "description" Zod.string_;
      Zod.optional_ "startTime" Zod.string_;
      Zod.optional_ "endTime" Zod.string_;
      Zod.optional_ "location" Zod.string_ ]
    (fun input =>
       try_catch (try_updateEvent input)
         (catch_as "Error updating event")).

Definition deleteEvent : StructuredTool :=
  object_tool "delete_event"
    [ Zod.required "eventId" Zod.number ]
    (fun input =>
       try_catch (try_deleteEvent input)
         (catch_as "Error deleting event")).

(* ------------- attendee tools ------------- *)

Definition attendee_status : Zod.type :=
  Zod.enum [ "pending"; "confirmed"; "tentative"; "declined" ].

Definition addAttendee : StructuredTool :=
  object_tool "add_attendee"
    [ Zod.required "eventId" Zod.number;
      Zod.required "name" Zod.string_;
      Zod.optional_ "email" Zod.string_;
      Zod.optional_ "status" attendee_status ]
    (fun input =>
       try_catch (try_addAttendee input)
         (catch_as "Error adding attendee")).

Definition updateAttendeeStatus : StructuredTool :=
  object_tool "update_attendee_status"
    [ Zod.required "attendeeId" Zod.number;
      Zod.required "status" attendee_status;
      Zod.optional_ "notes" Zod.string_ ]
    (fun input =>
       try_catch (try_updateAttendeeStatus input)
         (catch_as "Error updating attendee status")).

Definition removeAttendee : StructuredTool :=
  object_tool "remove_attendee"
    [ Zod.required "attendeeId" Zod.number ]
    (fun input =>
       try_catch (try_removeAttendee input)
         (catch_as "Error removing attendee")).

Definition listEventAttendees : StructuredTool :=
  object_tool "list_event_attendees"
    [ Zod.required "eventId" Zod.number ]
    (fun input =>
       try_catch (try_listEventAttendees input)
         (catch_as "Error listing attendees")).

(* ------------- reminder tools ------------- *)

Definition createReminder : StructuredTool :=
  object_tool "create_reminder"
    [ Zod.required "eventId" Zod.number;
      Zod.required "reminderTime" Zod.string_ ]
    (fun input =>
       try_catch (try_createReminder input)
         (catch_as "Error creating reminder")).

Definition listReminders : StructuredTool :=
  object_tool "list_reminders"
    [ Zod.optional_ "eventId" Zod.number;
      Zod.optional_ "includeSet" Zod.boolean ]
    (fun input =>
       try_catch (try_listReminders input)
         (catch_as "Error listing reminders")).

Definition markReminderSent : StructuredTool :=
  object_tool "mark_reminder_sent"
    [ Zod.required "reminderId" Zod.number ]
    (fun input =>
       try_catch (try_markReminderSent input)
         (catch_as "Error marking reminder as sent")).

(** All tools, in the order the agent registers them. *)
Definition allTools : list StructuredTool :=
  [ checkEventConflicts;
    createEventType;
    listEventTypes;
    createEvent;
    getEvent;
    listEvents;
    updateEvent;
    deleteEvent;
    addAttendee;
    updateAttendeeStatus;
    removeAttendee;
    listEventAttendees;
    createReminder;
    listReminders;
    markReminderSent ].

End WithHost.

End Tools.

(* ================================================================== *)
(** ** The agent graph (src/agent.ts) *)

Module Agent.

Record ToolCall : Type := Build_ToolCall {
  name : string;
  args : Json.object;
  id : string
}.

(** The messages of the transcript.  Only an AI message has a
    [tool_calls] array; a tool message carries the result of one call. *)
Inductive BaseMessage : Type :=
| HumanMessage (content : string)
| AIMessage (content : string) (tool_calls : list ToolCall)
| ToolMessage (content : string) (tool_call_id : string) (name : string).

(** ['tool_calls' in m && Array.isArray(m.tool_calls)], with the array. *)
Definition tool_calls_of (m : BaseMessage) : option (list ToolCall) :=
  match m with
  | AIMessage _ tool_calls => Some tool_calls
  | HumanMessage _ => None
  | ToolMessage _ _ _ => None
  end.

(** [messages[messages.length - 1]] *)
Definition last_message (messages : list BaseMessage) : option BaseMessage :=
  nth_error messages (List.length messages - 1).

(** The reply of the model bound to the tools. *)
Module Reply.
Record t : Type := make {
  content : string;
  tool_calls : list ToolCall
}.
End Reply.

(** The reasoning service and the prebuilt tool node's error texts. *)
Class Provider : Type := {
  modelWithTools_invoke : list BaseMessage -> Js.result Reply.t;
  (** the content of the tool message that reports a raised error *)
  tool_error_content : Js.exn -> string;
  (** raised for a call whose name is not in the catalog *)
  tool_not_found : string -> Js.exn;
  (** raised when the tool node does not find an AI message *)
  not_an_AIMessage : Js.exn
}.

Module Pending.
Record t : Type := make {
  startTime : Date;
  endTime : Date;
  excludeEventId : option Z
}.
End Pending.

(** [AgentState]: the messages, and two channels whose reducer keeps the
    last value written. *)
Record AgentState : Type := Build_AgentState {
  messages : list BaseMessage;
  pendingEventCheck : option Pending.t;
  conflictCheckResult : option string
}.

(** The object a node returns: the messages to append, and for the other
    two channels [None] when the key is absent, [Some v] when it is
    written ([Some None] writes [null]). *)
Module Update.
Record t : Type := make {
  messages : list BaseMessage;
  pendingEventCheck : option (option Pending.t);
  conflictCheckResult : option (option string)
}.
End Update.

Definition write {A : Type} (old : A) (update : option A) : A :=
  match update with
  | Some value => value
  | None => old
  end.

(** The reducers: the messages of an update are appended, the other two
    channels take the value written.  A message is told from the others
    by its place in the transcript; the identifiers that the messages
    themselves carry are not part of this embedding, which follows a turn
    in which every message has an identifier of its own (a reply under
    the identifier of an earlier message would take that message's
    place). *)
Definition apply (state : AgentState) (update : Update.t) : AgentState :=
  {| messages := (messages state ++ Update.messages update)%list;
     pendingEventCheck :=
       write (pendingEventCheck state) (Update.pendingEventCheck update);
     conflictCheckResult :=
       write (conflictCheckResult state) (Update.conflictCheckResult update) |}.

Inductive node : Type := agent | tools | conflict_detector.

Inductive destination : Type :=
| goto (n : node)
| END.

(** What [shouldCheckConflicts] returns. *)
Inductive branch : Type :=
| branch_conflict_detector
| branch_continue.

Section WithProvider.
Context {locale : Locale} {host : Host} {storage : Tools.Storage}
        {provider : Provider}.

Definition callModel (state : AgentState) : Db Update.t :=
  match modelWithTools_invoke (messages state) with
  | Js.Ok response =>
      ret {| Update.messages :=
               [ AIMessage (Reply.content response)
                           (Reply.tool_calls response) ];
             Update.pendingEventCheck := None;
             Update.conflictCheckResult := None |}
  | Js.Throw e => throw e
  end.

(** Node to run the conflict detection subgraph. *)
Definition checkConflicts (state : AgentState) : Db Update.t :=
  match pendingEventCheck state with
  | None =>
      ret {| Update.messages := [];
             Update.pendingEventCheck := None;
             Update.conflictCheckResult := Some None |}
  | Some pending =>
      result <- Conflict.conflictDetectionGraph_invoke
                  {| Conflict.startTime := Pending.startTime pending;
                     Conflict.endTime := Pending.endTime pending;
                     Conflict.excludeEventId :=
                       Pending.excludeEventId pending;
                     Conflict.conflicts := [];
                     Conflict.hasConflicts := false;
                     Conflict.message := Js.empty |} ;;
      ret {| Update.messages := [];
             Update.conflictCheckResult :=
               Some (Some (Conflict.message result));
             Update.pendingEventCheck := Some None |}
  end.

(** [tc.name === 'check_event_conflicts'] *)
Definition is_conflict_check (tc : ToolCall) : bool :=
  (name tc =? "check_event_conflicts")%string.

(** Router to determine if a conflict check is needed. *)
Definition shouldCheckConflicts (state : AgentState) : branch :=
  let lastMessage := last_message (messages state) in
  match lastMessage with
  | Some lastMessage =>
      match tool_calls_of lastMessage with
      | Some tool_calls =>
          let hasConflictCheck := existsb is_conflict_check tool_calls in
          if hasConflictCheck
          then branch_conflict_detector
          else branch_continue
      | None => branch_continue
      end
  | None => branch_continue
  end.

(** Whether to continue to the tools or to end, after the model. *)
Definition shouldContinue (state : AgentState) : destination :=
  let lastMessage := last_message (messages state) in
  match lastMessage with
  | Some lastMessage =>
      match tool_calls_of lastMessage with
      | Some tool_calls =>
          if (0 <? List.length tool_calls)%nat then goto tools else END
      | None => END
      end
  | None => END
  end.

(** The prebuilt tool node, for one call: the tool named by the call
    runs on its arguments and its text becomes a tool message; an error
    raised on the way becomes a tool message too. *)
Definition ToolNode_call (catalog : list Tools.StructuredTool)
    (call : ToolCall) : Db BaseMessage :=
  try_catch
    (match find (fun t => (Tools.name t =? name call)%string) catalog with
     | Some tool =>
         output <- Tools.invoke tool (args call) ;;
         ret (ToolMessage output (id call) (Tools.name tool))
     | None => throw (tool_not_found (name call))
     end)
    (fun e => ToolMessage (tool_error_content e) (id call) (name call)).

Fixpoint ToolNode_calls (catalog : list Tools.StructuredTool)
    (calls : list ToolCall) : Db (list BaseMessage) :=
  match calls with
  | [] => ret []
  | call :: rest =>
      output <- ToolNode_call catalog call ;;
      outputs <- ToolNode_calls catalog rest ;;
      ret (output :: outputs)
  end.

(** The identifiers of the calls that a tool message of the transcript
    answers. *)
Definition toolMessageIds (messages : list BaseMessage) : list string :=
  flat_map (fun m =>
              match m with
              | ToolMessage _ tool_call_id _ => [ tool_call_id ]
              | AIMessage _ _ => []
              | HumanMessage _ => []
              end)
           messages.

(** The AI message nearest to the end of the transcript. *)
Definition last_AIMessage (messages : list BaseMessage)
  : option (string * list ToolCall) :=
  fold_left (fun found m =>
               match m with
               | AIMessage content tool_calls => Some (content, tool_calls)
               | HumanMessage _ => found
               | ToolMessage _ _ _ => found
               end)
            messages None.

(** The calls the tool node runs: those that no tool message of the
    transcript answers yet. *)
Definition dispatched (messages : list BaseMessage)
    (tool_calls : list ToolCall) : list ToolCall :=
  filter (fun call =>
            negb (existsb (String.eqb (id call)) (toolMessageIds messages)))
         tool_calls.

(** [new ToolNode(catalog)]: of the last AI message of the transcript,
    the calls that are not answered yet are run and their tool messages
    returned, one per call run, in the order of the calls; a transcript
    without AI message is refused. *)
Definition ToolNode (catalog : list Tools.StructuredTool)
    (state : AgentState) : Db Update.t :=
  match last_AIMessage (messages state) with
  | Some (_, tool_calls) =>
      outputs <- ToolNode_calls catalog
                   (dispatched (messages state) tool_calls) ;;
      ret {| Update.messages := outputs;
             Update.pendingEventCheck := None;
             Update.conflictCheckResult := None |}
  | None => throw not_an_AIMessage
  end.

(** The nodes of [workflow]. *)
Definition run_node (n : node) (state : AgentState) : Db Update.t :=
  match n with
  | agent => callModel state
  | tools => ToolNode Tools.allTools state
  | conflict_detector => checkConflicts state
  end.

(** The edges of [workflow], followed from [n] once its update has been
    applied. *)
Definition next (n : node) (state : AgentState) : destination :=
  match n with
  | agent => shouldContinue state
  | tools =>
      match shouldCheckConflicts state with
      | branch_conflict_detector => goto conflict_detector
      | branch_continue => goto agent
      end
  | conflict_detector => goto agent
  end.

Definition step (n : node) (state : AgentState)
  : Db (destination * AgentState) :=
  update <- run_node n state ;;
  let state := apply state update in
  ret (next n state, state).

(** The compiled graph run from node [n]; [None] when [fuel] steps did
    not reach [END].  What a node raises ends the run; the run raises an
    [Error] object as the node raised it (a thrown value that is no object
    does not leave the graph as it was thrown, and nothing is stated here
    about it). *)
Fixpoint run (fuel : nat) (n : node) (state : AgentState)
  : Db (option AgentState) :=
  match fuel with
  | O => ret None
  | S fuel =>
      reached <- step n state ;;
      match reached with
      | (END, state) => ret (Some state)
      | (goto n, state) => run fuel n state
      end
  end.

(** [app.invoke({ messages })]: the other channels start at their
    default, [null]; the entry edge leads to [agent].  The messages given
    are taken to carry identifiers of their own, as [apply] takes those
    appended. *)
Definition app_invoke (fuel : nat) (messages : list BaseMessage)
  : Db (option AgentState) :=
  run fuel agent {| messages := messages;
                    pendingEventCheck := None;
                    conflictCheckResult := None |}.

End WithProvider.

End Agent.

(* ================================================================== *)
(** ** The specification's vocabulary *)

Module Spec.

(** The overlap of a stored event with the candidate range [s, e],
    boundaries included. *)
Definition overlaps (s e : Date) (E : Schema.events) : Prop :=
  (Schema.endTime E >= s /\ Schema.startTime E <= e)%Z.

(** Whether the exclusion rule removes [E]: an identifier is supplied, the
    code's test [if (excludeEventId)] passes, and it is [E]'s. *)
Definition excludes (excludeId : option Z) (E : Schema.events) : bool :=
  match excludeId with
  | Some excluded =>
      Js.truthy_number (Some excluded) && (Schema.id E =? excluded)%Z
  | None => false
  end.

(** The conflict check request for the range [s, e] and an optional
    exclusion, as both callers of the subgraph build its input. *)
Definition request (s e : Date) (excludeId : option Z)
  : Conflict.ConflictState :=
  {| Conflict.startTime := s;
     Conflict.endTime := e;
     Conflict.excludeEventId := excludeId;
     Conflict.conflicts := [];
     Conflict.hasConflicts := false;
     Conflict.message := Js.empty |}.

(** A tool-result message. *)
Definition is_tool_message (m : Agent.BaseMessage) : Prop :=
  match m with
  | Agent.ToolMessage _ _ _ => True
  | Agent.AIMessage _ _ => False
  | Agent.HumanMessage _ => False
  end.

(** The dispatched set of calls names the conflict-check tool. *)
Definition names_conflict_check (calls : list Agent.ToolCall) : Prop :=
  exists call, In call calls /\ Agent.name call = "check_event_conflicts".

(** The function of a tool is one [try] block whose [catch] returns the
    text [<label>: <message of the error>]. *)
Definition guarded (tool : Tools.StructuredTool) : Prop :=
  exists (label : string) (body : Tools.Input tool -> Db string),
    forall input,
      Tools.func tool input = try_catch (body input) (Tools.catch_as label).

(** The stored events carry the identifiers that the serial primary key
    of the table generates: 1, 2, 3 and so on. *)
Definition serial_ids (rows : list Schema.events) : Prop :=
  forall row, In row rows -> (1 <= Schema.id row)%Z.

(** What [body] raises inside the function of [tool] comes back as the
    text [<label>: <message>], the message of an [Error] object or
    [Unknown error]; what [body] returns comes back as it is. *)
Definition catches (tool : Tools.StructuredTool) (label : string)
    (body : Tools.Input tool -> Db string) : Prop :=
  forall input db,
    Tools.func tool input db =
    match body input db with
    | (Js.Ok text, db') => (Js.Ok text, db')
    | (Js.Throw (Js.Error message), db') =>
        (Js.Ok (label ++ ": " ++ message), db')
    | (Js.Throw Js.Thrown, db') =>
        (Js.Ok (label ++ ": Unknown error"), db')
    end.

(** What the query selects from [rows] when the storage answers. *)
Definition kept (state : Conflict.ConflictState) (rows : list Schema.events)
  : list Conflict.Event.t :=
  map Conflict.select
      (filter (Conflict.and_ (Conflict.conditions state)) rows).

Section WithLocale.
Context {locale : Locale}.

(** The number of conflicts in decimal digits. *)
Definition numeral (count : nat) : string :=
  NilZero.string_of_uint (Nat.to_uint count).

(** The line that carries the count and prefixes the enumeration; it
    ends with a line feed. *)
Definition count_prefix (count : nat) : string :=
  "⚠️  Found " ++ numeral count ++ " conflicting event(s):"
               ++ String "010"%char EmptyString.

(** [ at <location>], present when the event has a location: a text
    that is not empty. *)
Definition at_location (event : Conflict.Event.t) : string :=
  match Conflict.Event.location event with
  | Some (String c rest) => " at " ++ String c rest
  | Some EmptyString => EmptyString
  | None => EmptyString
  end.

(** The line of one conflicting event: the list mark, the title between
    double quotes, the two instants between parentheses with a hyphen
    between them, [ at <location>] when there is one, and a line feed. *)
Definition line (event : Conflict.Event.t) : string :=
  "  - " ++ String "034"%char (Conflict.Event.title event)
         ++ String "034"%char
              (" (" ++ toLocaleString (Conflict.Event.startTime event)
                    ++ " - " ++ toLocaleString (Conflict.Event.endTime event)
                    ++ ")" ++ at_location event
                    ++ String "010"%char EmptyString).

(** One line per event, in the order of the events. *)
Fixpoint enumeration (events : list Conflict.Event.t) : string :=
  match events with
  | [] => EmptyString
  | event :: rest => line event ++ enumeration rest
  end.

(** The message for a list of conflicts. *)
Definition rendered (events : list Conflict.Event.t) : string :=
  match events with
  | [] => "✓ No conflicts found"
  | _ :: _ => count_prefix (List.length events) ++ enumeration events
  end.

(** The line of one conflicting event as the specification writes it:
    ["<title>" (<start> – <end>)], with [ at <location>] for an event
    that has a location, whatever its text. *)
Definition line_as_specified (event : Conflict.Event.t) : string :=
  String "034"%char (Conflict.Event.title event)
    ++ String "034"%char
         (" (" ++ toLocaleString (Conflict.Event.startTime event)
               ++ " – " ++ toLocaleString (Conflict.Event.endTime event)
               ++ ")"
               ++ match Conflict.Event.location event with
                  | Some location => " at " ++ location
                  | None => EmptyString
                  end
               ++ String "010"%char EmptyString).

Fixpoint enumeration_as_specified (events : list Conflict.Event.t)
  : string :=
  match events with
  | [] => EmptyString
  | event :: rest => line_as_specified event ++ enumeration_as_specified rest
  end.

Definition rendered_as_specified (events : list Conflict.Event.t)
  : string :=
  match events with
  | [] => "✓ No conflicts found"
  | _ :: _ =>
      count_prefix (List.length events) ++ enumeration_as_specified events
  end.

End WithLocale.

End Spec.

(* ================================================================== *)
(** ** A concrete calendar, host and reasoning service *)

Module Scenario.

(** Instants are written in minutes from 2024-01-01T00:00. *)
Definition locale : Locale :=
  {| toLocaleString := fun d => NilZero.string_of_int (Z.to_int d) |}.

Definition instants : list (string * Date) :=
  [ ("2024-01-01T10:00", 600%Z);
    ("2024-01-01T10:30", 630%Z);
    ("2024-01-01T11:00", 660%Z);
    ("2024-01-01T11:30", 690%Z);
    ("2024-01-01T12:00", 720%Z) ].

Fixpoint lookup (s : string) (table : list (string * Date)) : option Date :=
  match table with
  | [] => None
  | (k, v) :: rest => if (k =? s)%string then Some v else lookup s rest
  end.

Definition host : Host :=
  {| Date_parse := fun s => lookup s instants;
     invalid_time_value := Js.Error "Invalid time value";
     ToolInputParsingException :=
       Js.Error "Received tool input did not match expected schema" |}.

(** A storage whose writes are refused and whose listings are empty. *)
Definition storage : Tools.Storage :=
  let refused : Json.object -> Db string :=
    fun _ => throw (Js.Error "permission denied") in
  let nothing : Json.object -> Db string :=
    fun _ => ret "No events found" in
  {| Tools.try_createEventType := refused;
     Tools.try_listEventTypes := nothing;
     Tools.try_createEvent := refused;
     Tools.try_getEvent := nothing;
     Tools.try_listEvents := nothing;
     Tools.try_updateEvent := refused;
     Tools.try_deleteEvent := refused;
     Tools.try_addAttendee := refused;
     Tools.try_updateAttendeeStatus := refused;
     Tools.try_removeAttendee := refused;
     Tools.try_listEventAttendees := nothing;
     Tools.try_createReminder := refused;
     Tools.try_listReminders := nothing;
     Tools.try_markReminderSent := fun _ => throw Js.Thrown |}.

Definition event (id : Z) (title : string) (startTime endTime : Date)
    (location : option string) : Schema.events :=
  {| Schema.id := id;
     Schema.title := title;
     Schema.description := None;
     Schema.startTime := startTime;
     Schema.endTime := endTime;
     Schema.location := location;
     Schema.eventTypeId := 1%Z;
     Schema.isAllDay := false;
     Schema.isRecurring := false;
     Schema.recurrenceRule := None;
     Schema.createdAt := 0%Z;
     Schema.updatedAt := 0%Z |}.

(** The stored event A of the scenarios: 10:00 to 11:00. *)
Definition A : Schema.events := event 1 "A" 600 660 None.

(** A row whose identifier is 0. *)
Definition Z0 : Schema.events := event 0 "Z" 600 660 (Some "Room 2").

(** The call the model makes to check 10:30 to 11:30. *)
Definition check_call : Agent.ToolCall :=
  {| Agent.name := "check_event_conflicts";
     Agent.args := [ ("startTime", Json.str "2024-01-01T10:30");
                     ("endTime", Json.str "2024-01-01T11:30") ];
     Agent.id := "call_1" |}.

(** A reasoning service that asks for the conflict check after the user's
    message and replies in text after anything else. *)
Definition provider : Agent.Provider :=
  {| Agent.modelWithTools_invoke := fun messages =>
       match Agent.last_message messages with
       | Some (Agent.HumanMessage _) =>
           Js.Ok {| Agent.Reply.content := EmptyString;
                    Agent.Reply.tool_calls := [ check_call ] |}
       | _ =>
           Js.Ok {| Agent.Reply.content := "That slot is taken.";
                    Agent.Reply.tool_calls := [] |}
       end;
     Agent.tool_error_content := fun e =>
       "Error: " ++ Js.error_message e ++ Js.newline
                 ++ " Please fix your mistakes.";
     Agent.tool_not_found := fun name =>
       Js.Error ("Tool " ++ Js.quote ++ name ++ Js.quote ++ " not found.");
     Agent.not_an_AIMessage :=
       Js.Error "ToolNode only accepts AIMessages as input." |}.

Definition user_asks : list Agent.BaseMessage :=
  [ Agent.HumanMessage "Am I free on January 1st, 10:30 to 11:30?" ].

(** The state the graph starts from, and the state once [agent] has
    appended the model's request for the conflict check. *)
Definition initial : Agent.AgentState :=
  {| Agent.messages := user_asks;
     Agent.pendingEventCheck := None;
     Agent.conflictCheckResult := None |}.

Definition asked : Agent.AgentState :=
  {| Agent.messages :=
       user_asks ++ [ Agent.AIMessage EmptyString [ check_call ] ];
     Agent.pendingEventCheck := None;
     Agent.conflictCheckResult := None |}.

(** Calls that fail: a write the storage refuses, a conflict check without
    its end, and a tool that does not exist. *)
Definition create_call : Agent.ToolCall :=
  {| Agent.name := "create_event";
     Agent.args := [ ("title", Json.str "B");
                     ("startTime", Json.str "2024-01-01T12:00");
                     ("endTime", Json.str "2024-01-01T12:30");
                     ("eventTypeId", Json.num 1) ];
     Agent.id := "call_2" |}.

Definition bad_call : Agent.ToolCall :=
  {| Agent.name := "check_event_conflicts";
     Agent.args := [ ("startTime", Json.str "2024-01-01T10:30") ];
     Agent.id := "call_3" |}.

Definition unknown_call : Agent.ToolCall :=
  {| Agent.name := "send_invitation";
     Agent.args := [];
     Agent.id := "call_4" |}.

Definition dispatch :=
  Agent.ToolNode_calls (host := host) (provider := provider)
    (Tools.allTools (locale := locale) (host := host) (storage := storage)).

(** The graph and the subroutine on this host, and the calendar that
    holds A alone. *)
Definition step := @Agent.step locale host storage provider.

Definition app_invoke := @Agent.app_invoke locale host storage provider.

Definition detectConflicts := @Conflict.detectConflicts locale.

Definition calendar : database := Connected [ A ].

End Scenario.

(* ================================================================== *)
(** ** The tools of the events table (src/tools.ts)

    [list_events] and [delete_event] read and write the [events] table
    alone, through a query without constraint to violate; their [try]
    blocks are embedded here.  The tools that insert or update rows depend
    on the sequences, keys and length limits of the storage and stay the
    parameters of [Tools.Storage]. *)

From Stdlib Require Import Sorted Permutation.

(** What the host contributes to a listing: the text of an instant in a
    template literal, [Date.prototype.toString]. *)
Class DateText : Type := { Date_toString : Date -> string }.

(** [orderBy(asc(events.startTime))], as the storage answers it. *)
Class Ordering : Type := {
  orderBy_startTime : list Schema.events -> list Schema.events
}.

Module EventTools.

(** The storage orders as asked: the rows it returns are the rows it was
    given, by ascending start; rows with the same start come in the order
    it chooses. *)
Definition sorts (ordering : Ordering) : Prop :=
  forall rows,
    Permutation rows (orderBy_startTime rows) /\
    StronglySorted
      (fun a b => (Schema.startTime a <= Schema.startTime b)%Z)
      (orderBy_startTime rows).

(** drizzle's operators on a column of [events]. *)
Definition gte (column : Schema.events -> Z) (v : Z) (row : Schema.events)
  : bool :=
  (v <=? column row)%Z.

Definition lte (column : Schema.events -> Z) (v : Z) (row : Schema.events)
  : bool :=
  (column row <=? v)%Z.

Definition eq_ (column : Schema.events -> Z) (v : Z) (row : Schema.events)
  : bool :=
  (column row =? v)%Z.

Definition and_ (conditions : list (Schema.events -> bool))
    (row : Schema.events) : bool :=
  forallb (fun condition => condition row) conditions.

(** Template interpolation of a number that is an integer. *)
Definition number_text (n : Z) : string :=
  NilZero.string_of_int (Z.to_int n).

(** [db.delete(events).where(filter)] *)
Definition delete_from_events (where_ : Schema.events -> bool) : Db unit :=
  fun db =>
    match db with
    | Connected rows =>
        (Js.Ok tt, Connected (filter (fun row => negb (where_ row)) rows))
    | Unavailable error => (Js.Throw error, db)
    end.

(** The validated input of [list_events]. *)
Module ListArgs.
Record t : Type := make {
  startDate : option string;
  endDate : option string;
  eventTypeId : option Z
}.
End ListArgs.

Definition listEvents_input (input : Json.object) : ListArgs.t :=
  {| ListArgs.startDate :=
       match Json.get "startDate" input with
       | Some (Json.str s) => Some s
       | _ => None
       end;
     ListArgs.endDate :=
       match Json.get "endDate" input with
       | Some (Json.str s) => Some s
       | _ => None
       end;
     ListArgs.eventTypeId :=
       match Json.get "eventTypeId" input with
       | Some (Json.num n) => Some n
       | _ => None
       end |}.

Section WithHost.
Context {host : Host} {text : DateText} {ordering : Ordering}.

(** [db.select().from(events)], with [.where(and(...conditions))] when
    there are conditions, and [.orderBy(asc(events.startTime))]. *)
Definition select_events_ordered
    (conditions : list (Schema.events -> bool)) : Db (list Schema.events) :=
  fun db =>
    match db with
    | Connected rows =>
        (Js.Ok (orderBy_startTime
                  (if (0 <? List.length conditions)%nat
                   then filter (and_ conditions) rows
                   else rows)),
         db)
    | Unavailable error => (Js.Throw error, db)
    end.

(** The conditions [list_events] pushes, one per truthy filter. *)
Definition listEvents_conditions (input : ListArgs.t)
  : Db (list (Schema.events -> bool)) :=
  from_start <-
    match ListArgs.startDate input with
    | Some startDate =>
        if Js.truthy_string (Some startDate)
        then (instant <- Tools.new_Date startDate ;;
              ret [ gte Schema.startTime instant ])
        else ret []
    | None => ret []
    end ;;
  to_end <-
    match ListArgs.endDate input with
    | Some endDate =>
        if Js.truthy_string (Some endDate)
        then (instant <- Tools.new_Date endDate ;;
              ret [ lte Schema.endTime instant ])
        else ret []
    | None => ret []
    end ;;
  let of_type :=
    match ListArgs.eventTypeId input with
    | Some eventTypeId =>
        if Js.truthy_number (Some eventTypeId)
        then [ eq_ Schema.eventTypeId eventTypeId ]
        else []
    | None => []
    end in
  ret (from_start ++ to_end ++ of_type)%list.

(** The bound a date filter sets: none when the text is absent or empty,
    the instant it reads as, or the error of a text that is no date. *)
Definition bound (filter : option string) : Js.result (option Date) :=
  match filter with
  | Some (String c rest) =>
      match Date_parse (String c rest) with
      | Some instant => Js.Ok (Some instant)
      | None => Js.Throw invalid_time_value
      end
  | Some EmptyString => Js.Ok None
  | None => Js.Ok None
  end.

(** A row that starts at or after [from], ends at or before [to], and is
    of the type [type] when that is not 0. *)
Definition within (from to : option Date) (type : option Z)
    (row : Schema.events) : bool :=
  match from with
  | Some instant => (instant <=? Schema.startTime row)%Z
  | None => true
  end
  && match to with
     | Some instant => (Schema.endTime row <=? instant)%Z
     | None => true
     end
  && match type with
     | Some eventTypeId =>
         (eventTypeId =? 0)%Z || (Schema.eventTypeId row =? eventTypeId)%Z
     | None => true
     end.

(** [const result = ...]: the rows [list_events] reads. *)
Definition listEvents_result (input : ListArgs.t)
  : Db (list Schema.events) :=
  conditions <- listEvents_conditions input ;;
  select_events_ordered conditions.

(** The line of one listed event. *)
Definition event_line (e : Schema.events) : string :=
  number_text (Schema.id e) ++ ": " ++ Schema.title e ++ " | "
    ++ Date_toString (Schema.startTime e) ++ " to "
    ++ Date_toString (Schema.endTime e)
    ++ match Schema.location e with
       | Some location =>
           if Js.truthy_string (Some location)
           then " | " ++ location
           else EmptyString
       | None => EmptyString
       end.

Definition listEvents_try (input : ListArgs.t) : Db string :=
  result <- listEvents_result input ;;
  if (List.length result =? 0)%nat
  then ret "No events found"
  else ret (String.concat Js.newline (map event_line result)).

Definition listEvents_func (input : ListArgs.t) : Db string :=
  try_catch (listEvents_try input) (Tools.catch_as "Error listing events").

Definition deleteEvent_try (eventId : Z) : Db string :=
  _ <- delete_from_events (eq_ Schema.id eventId) ;;
  ret ("Event " ++ number_text eventId ++ " deleted successfully").

Definition deleteEvent_func (eventId : Z) : Db string :=
  try_catch (deleteEvent_try eventId) (Tools.catch_as "Error deleting event").

(** The storage of the catalog with these two [try] blocks in place; the
    schema has made [eventId] a number before the block runs. *)
Definition with_event_tools (storage : Tools.Storage) : Tools.Storage :=
  {| Tools.try_createEventType := Tools.try_createEventType;
     Tools.try_listEventTypes := Tools.try_listEventTypes;
     Tools.try_createEvent := Tools.try_createEvent;
     Tools.try_getEvent := Tools.try_getEvent;
     Tools.try_listEvents := fun input =>
       listEvents_try (listEvents_input input);
     Tools.try_updateEvent := Tools.try_updateEvent;
     Tools.try_deleteEvent := fun input =>
       match Json.get "eventId" input with
       | Some (Json.num eventId) => deleteEvent_try eventId
       | _ => throw Js.Thrown
       end;
     Tools.try_addAttendee := Tools.try_addAttendee;
     Tools.try_updateAttendeeStatus := Tools.try_updateAttendeeStatus;
     Tools.try_removeAttendee := Tools.try_removeAttendee;
     Tools.try_listEventAttendees := Tools.try_listEventAttendees;
     Tools.try_createReminder := Tools.try_createReminder;
     Tools.try_listReminders := Tools.try_listReminders;
     Tools.try_markReminderSent := Tools.try_markReminderSent |}.

End WithHost.

End EventTools.

(* ================================================================== *)
(** ** A week of events, a storage that sorts, two more services *)

Module Week.

(** Insertion by start, after the rows that start at the same instant. *)
Fixpoint insert (row : Schema.events) (sorted : list Schema.events)
  : list Schema.events :=
  match sorted with
  | [] => [ row ]
  | first :: rest =>
      if (Schema.startTime row <? Schema.startTime first)%Z
      then row :: first :: rest
      else first :: insert row rest
  end.

Definition sort (rows : list Schema.events) : list Schema.events :=
  fold_right insert [] rows.

Definition ordering : Ordering := {| orderBy_startTime := sort |}.

Definition text : DateText :=
  {| Date_toString := fun d => NilZero.string_of_int (Z.to_int d) |}.

(** B follows A: 11:00 to 12:00, in room 2; C is an instant at 10:30. *)
Definition B : Schema.events :=
  {| Schema.id := 2;
     Schema.title := "B";
     Schema.description := None;
     Schema.startTime := 660;
     Schema.endTime := 720;
     Schema.location := Some "Room 2";
     Schema.eventTypeId := 2;
     Schema.isAllDay := false;
     Schema.isRecurring := false;
     Schema.recurrenceRule := None;
     Schema.createdAt := 0;
     Schema.updatedAt := 0 |}.

Definition C : Schema.events := Scenario.event 3 "C" 630 630 None.

Definition rows : list Schema.events := [ B; Scenario.A; C ].

Definition calendar : database := Connected rows.

(** D runs beside A; its location is the empty text. *)
Definition D : Schema.events :=
  Scenario.event 4 "D" 600 660 (Some EmptyString).

(** A reasoning service that asks for the same conflict check, under
    the same call identifier, whatever it is told. *)
Definition insistent : Agent.Provider :=
  {| Agent.modelWithTools_invoke := fun _ =>
       Js.Ok {| Agent.Reply.content := EmptyString;
                Agent.Reply.tool_calls := [ Scenario.check_call ] |};
     Agent.tool_error_content := Agent.tool_error_content
                                   (Provider := Scenario.provider);
     Agent.tool_not_found := Agent.tool_not_found
                               (Provider := Scenario.provider);
     Agent.not_an_AIMessage := Agent.not_an_AIMessage
                                 (Provider := Scenario.provider) |}.

(** The state once the tools have answered that call, and the state once
    the service has asked again. *)
Definition answered : Agent.AgentState :=
  {| Agent.messages :=
       Agent.messages Scenario.asked ++
       [ Agent.ToolMessage
           (Conflict.render (locale := Scenario.locale)
              [ Conflict.select Scenario.A ] true)
           "call_1" "check_event_conflicts" ];
     Agent.pendingEventCheck := None;
     Agent.conflictCheckResult := None |}.

Definition asked_again : Agent.AgentState :=
  {| Agent.messages :=
       Agent.messages answered ++
       [ Agent.AIMessage EmptyString [ Scenario.check_call ] ];
     Agent.pendingEventCheck := None;
     Agent.conflictCheckResult := None |}.

(** A reasoning service that is down. *)
Definition down : Agent.Provider :=
  {| Agent.modelWithTools_invoke := fun _ =>
       Js.Throw (Js.Error "503 Service Unavailable");
     Agent.tool_error_content := Agent.tool_error_content
                                   (Provider := Scenario.provider);
     Agent.tool_not_found := Agent.tool_not_found
                               (Provider := Scenario.provider);
     Agent.not_an_AIMessage := Agent.not_an_AIMessage
                                 (Provider := Scenario.provider) |}.

Definition listEvents_result :=
  EventTools.listEvents_result (host := Scenario.host) (ordering := ordering).

Definition listEvents_func :=
  EventTools.listEvents_func (host := Scenario.host) (text := text)
                             (ordering := ordering).

(** The window 10:00 to 11:00, every type. *)
Definition morning : EventTools.ListArgs.t :=
  {| EventTools.ListArgs.startDate := Some "2024-01-01T10:00";
     EventTools.ListArgs.endDate := Some "2024-01-01T11:00";
     EventTools.ListArgs.eventTypeId := None |}.

End Week.

(* ================================================================== *)
(** ** Facts about strings and the storage monad *)

Lemma append_assoc (a b c : string) : ((a ++ b) ++ c = a ++ (b ++ c))%string.
Proof.
  induction a as [|ch a IH]; simpl.
  - reflexivity.
  - now rewrite IH.
Qed.

Lemma append_empty_r (a : string) : (a ++ EmptyString)%string = a.
Proof.
  induction a as [|ch a IH]; simpl; [reflexivity | now rewrite IH].
Qed.

Lemma bind_Ok {A B : Type} (m : Db A) (k : A -> Db B) db a db' :
  m db = (Js.Ok a, db') -> bind m k db = k a db'.
Proof. unfold bind; intros ->; reflexivity. Qed.

Lemma bind_Throw {A B : Type} (m : Db A) (k : A -> Db B) db e db' :
  m db = (Js.Throw e, db') -> bind m k db = (Js.Throw e, db').
Proof. unfold bind; intros ->; reflexivity. Qed.

(** A [try]/[catch] whose handler returns never raises. *)
Lemma try_catch_returns {A : Type} (body : Db A) (handler : Js.exn -> A) db :
  exists a db', try_catch body handler db = (Js.Ok a, db').
Proof.
  unfold try_catch; destruct (body db) as [[a|e] db']; eauto.
Qed.

Lemma try_catch_Throw {A : Type} (body : Db A) (handler : Js.exn -> A)
    db e db' :
  body db = (Js.Throw e, db') ->
  try_catch body handler db = (Js.Ok (handler e), db').
Proof. unfold try_catch; intros ->; reflexivity. Qed.

Lemma try_catch_Ok {A : Type} (body : Db A) (handler : Js.exn -> A)
    db a db' :
  body db = (Js.Ok a, db') ->
  try_catch body handler db = (Js.Ok a, db').
Proof. unfold try_catch; intros ->; reflexivity. Qed.

(* ================================================================== *)
(** ** The conflict detection subgraph *)

Section ConflictFacts.
Context {locale : Locale}.

Lemma checkConflicts_connected state rows :
  Conflict.checkConflicts state (Connected rows) =
  (Js.Ok {| Conflict.Out.conflicts := Spec.kept state rows;
            Conflict.Out.hasConflicts :=
              (0 <? List.length (Spec.kept state rows))%nat;
            Conflict.Out.message :=
              Conflict.render (Spec.kept state rows)
                (0 <? List.length (Spec.kept state rows))%nat |},
   Connected rows).
Proof. reflexivity. Qed.

Lemma checkConflicts_unavailable state error :
  Conflict.checkConflicts state (Unavailable error) =
  (Js.Throw error, Unavailable error).
Proof. reflexivity. Qed.

(** The check only reads: the storage is the same afterwards. *)
Lemma checkConflicts_reads state db :
  snd (Conflict.checkConflicts state db) = db.
Proof. destruct db; reflexivity. Qed.

Lemma invoke_connected input rows :
  Conflict.conflictDetectionGraph_invoke input (Connected rows) =
  (Js.Ok {| Conflict.startTime := Conflict.startTime input;
            Conflict.endTime := Conflict.endTime input;
            Conflict.excludeEventId := Conflict.excludeEventId input;
            Conflict.conflicts := Spec.kept input rows;
            Conflict.hasConflicts :=
              (0 <? List.length (Spec.kept input rows))%nat;
            Conflict.message :=
              Conflict.render (Spec.kept input rows)
                (0 <? List.length (Spec.kept input rows))%nat |},
   Connected rows).
Proof. reflexivity. Qed.

Lemma detectConflicts_is_check s e ex db :
  Conflict.detectConflicts s e ex db =
  Conflict.checkConflicts (Spec.request s e ex) db.
Proof.
  destruct db as [rows|error]; [|reflexivity].
  rewrite checkConflicts_connected. reflexivity.
Qed.

(** The query's filter reads a row through the selected columns only. *)
Lemma column_value_select c row row' :
  Conflict.select row = Conflict.select row' ->
  Conflict.column_value c row = Conflict.column_value c row'.
Proof.
  intros H. destruct c; simpl.
  - exact (f_equal Conflict.Event.id H).
  - exact (f_equal Conflict.Event.startTime H).
  - exact (f_equal Conflict.Event.endTime H).
Qed.

Lemma and_select conds row row' :
  Conflict.select row = Conflict.select row' ->
  Conflict.and_ conds row = Conflict.and_ conds row'.
Proof.
  intros H. unfold Conflict.and_.
  induction conds as [|c conds IH]; simpl; [reflexivity|].
  rewrite IH. f_equal.
  destruct c; simpl; now rewrite (column_value_select _ _ _ H).
Qed.

(** The filter, read as the specification words it. *)
Lemma and_conditions state row :
  Conflict.and_ (Conflict.conditions state) row =
  (Conflict.startTime state <=? Schema.endTime row)%Z
  && (Schema.startTime row <=? Conflict.endTime state)%Z
  && negb (Spec.excludes (Conflict.excludeEventId state) row).
Proof.
  unfold Conflict.and_, Conflict.conditions, Spec.excludes.
  destruct (Conflict.excludeEventId state) as [x|]; simpl.
  - destruct (x =? 0)%Z; simpl;
      destruct (_ <=? Schema.endTime row)%Z;
      destruct (Schema.startTime row <=? _)%Z; simpl;
      try reflexivity.
    now rewrite andb_true_r.
  - destruct (_ <=? Schema.endTime row)%Z;
      destruct (Schema.startTime row <=? _)%Z; reflexivity.
Qed.

Lemma In_kept state rows E :
  In E rows ->
  (In (Conflict.select E) (Spec.kept state rows) <->
   Conflict.and_ (Conflict.conditions state) E = true).
Proof.
  intros HE. unfold Spec.kept. rewrite in_map_iff. split.
  - intros (E' & Hsel & Hin). apply filter_In in Hin as [_ Hp].
    now rewrite <- (and_select _ _ _ Hsel).
  - intros Hp. exists E. split; [reflexivity|]. apply filter_In. now split.
Qed.

Lemma kept_inv state rows ev :
  In ev (Spec.kept state rows) ->
  exists E, In E rows /\ Conflict.select E = ev /\
            Conflict.and_ (Conflict.conditions state) E = true.
Proof.
  unfold Spec.kept. rewrite in_map_iff. intros (E & Hsel & Hin).
  apply filter_In in Hin as [Hin Hp]. eauto.
Qed.

(** The [forEach] loop appends the lines of the enumeration. *)
Lemma append_event_line message event :
  Conflict.append_event message event = (message ++ Spec.line event)%string.
Proof.
  unfold Conflict.append_event, Spec.line, Spec.at_location.
  destruct (Conflict.Event.location event) as [[|c rest]|]; simpl Js.truthy_string;
    cbv iota; repeat rewrite append_assoc; try reflexivity.
Qed.

Lemma fold_append_event events message :
  fold_left Conflict.append_event events message =
  (message ++ Spec.enumeration events)%string.
Proof.
  revert message.
  induction events as [|event events IH]; intros message; simpl.
  - now rewrite append_empty_r.
  - rewrite IH, append_event_line. apply append_assoc.
Qed.

Lemma render_rendered events :
  Conflict.render events (0 <? List.length events)%nat =
  Spec.rendered events.
Proof.
  destruct events as [|event events]; [reflexivity|].
  unfold Conflict.render, Spec.rendered.
  change (0 <? List.length (event :: events))%nat with true. cbv iota.
  rewrite fold_append_event. reflexivity.
Qed.

End ConflictFacts.

(** The decimal digits of a count read back as that count. *)
Lemma numeral_reads_back (count : nat) :
  option_map Nat.of_uint (NilZero.uint_of_string (Spec.numeral count))
  = Some count.
Proof.
  unfold Spec.numeral. rewrite NilZero.usu.
  - simpl. now rewrite DecimalNat.Unsigned.of_to.
  - destruct count; [discriminate|].
    intros H. apply (f_equal Nat.of_uint) in H.
    rewrite DecimalNat.Unsigned.of_to in H. discriminate.
Qed.

Section ConflictProperties.
Context {locale : Locale}.

Lemma detectConflicts_connected s e ex rows :
  Conflict.detectConflicts s e ex (Connected rows) =
  (Js.Ok {| Conflict.Out.conflicts := Spec.kept (Spec.request s e ex) rows;
            Conflict.Out.hasConflicts :=
              (0 <? List.length (Spec.kept (Spec.request s e ex) rows))%nat;
            Conflict.Out.message :=
              Spec.rendered (Spec.kept (Spec.request s e ex) rows) |},
   Connected rows).
Proof.
  rewrite detectConflicts_is_check, checkConflicts_connected.
  now rewrite render_rendered.
Qed.

Lemma overlaps_filter s e ex E :
  Spec.excludes ex E = false ->
  (Conflict.and_ (Conflict.conditions (Spec.request s e ex)) E = true <->
   Spec.overlaps s e E).
Proof.
  intros Hex. rewrite and_conditions. simpl. rewrite Hex. simpl.
  rewrite andb_true_r, andb_true_iff, !Z.leb_le.
  unfold Spec.overlaps. lia.
Qed.

(** C1.  For every stored event E and every candidate range [s, e], the
    result of the overlap check includes E if and only if
    E.end >= s and E.start <= e, E being an event that the exclusion rule
    (the subject of C4) does not remove.  In particular an event that
    ends exactly at s, or starts exactly at e, is reported: touching
    boundaries count as conflicts. *)
Theorem overlap_iff_inclusive rows (s e : Date) (ex : option Z)
    (E : Schema.events) :
  In E rows ->
  Spec.excludes ex E = false ->
  exists out,
    Conflict.detectConflicts s e ex (Connected rows)
      = (Js.Ok out, Connected rows) /\
    (In (Conflict.select E) (Conflict.Out.conflicts out) <->
     (Schema.endTime E >= s /\ Schema.startTime E <= e)%Z) /\
    ((Schema.startTime E <= Schema.endTime E)%Z -> (s <= e)%Z ->
     Schema.endTime E = s \/ Schema.startTime E = e ->
     In (Conflict.select E) (Conflict.Out.conflicts out)).
Proof.
  intros HE Hex. eexists. split; [apply detectConflicts_connected|].
  simpl. rewrite (In_kept _ _ _ HE), (overlaps_filter _ _ _ _ Hex).
  unfold Spec.overlaps. split; [reflexivity|]. lia.
Qed.

(** C4.  For every candidate range and every supplied exclusion
    identifier, over stored events whose identifiers the serial primary
    key generated, the result of the overlap check holds no event with
    the supplied identifier, whether or not that event overlaps the
    range. *)
Theorem excluded_event_is_not_reported rows (s e : Date) (excluded : Z) :
  Spec.serial_ids rows ->
  exists out,
    Conflict.detectConflicts s e (Some excluded) (Connected rows)
      = (Js.Ok out, Connected rows) /\
    forall event, In event (Conflict.Out.conflicts out) ->
                  Conflict.Event.id event <> excluded.
Proof.
  intros Hids. eexists. split; [apply detectConflicts_connected|].
  simpl. intros event Hin.
  apply kept_inv in Hin as (E & HE & <- & Hp).
  destruct (Z.eq_dec excluded 0) as [->|Hx].
  - specialize (Hids E HE). simpl. lia.
  - rewrite and_conditions in Hp. simpl in Hp.
    apply andb_true_iff in Hp as [_ Hp].
    apply Z.eqb_neq in Hx. rewrite Hx in Hp. simpl in Hp.
    apply negb_true_iff, Z.eqb_neq in Hp. exact Hp.
Qed.

(** C7, as amended.  For every conflict check request the rendered
    message is the fixed text when no event conflicts; otherwise it is
    the line [⚠️  Found <n> conflicting event(s):], <n> being the number
    of conflicting events in decimal digits, followed by one line per
    conflicting event, in the order of the result: two spaces, a hyphen,
    a space, the title between double quotes, then [ (<start> - <end>)]
    with an ASCII hyphen between the two instants in the host's locale
    format, then [ at <location>] exactly when the location is a text
    that is not empty; every line ends with a line feed. *)
Theorem message_is_rendered rows (s e : Date) (ex : option Z) :
  exists out,
    Conflict.detectConflicts s e ex (Connected rows)
      = (Js.Ok out, Connected rows) /\
    Conflict.Out.message out =
      match Conflict.Out.conflicts out with
      | [] => "✓ No conflicts found"
      | _ :: _ =>
          ("⚠️  Found "
             ++ Spec.numeral (List.length (Conflict.Out.conflicts out))
             ++ " conflicting event(s):" ++ String "010"%char EmptyString
             ++ Spec.enumeration (Conflict.Out.conflicts out))%string
      end /\
    option_map Nat.of_uint
      (NilZero.uint_of_string
         (Spec.numeral (List.length (Conflict.Out.conflicts out))))
      = Some (List.length (Conflict.Out.conflicts out)).
Proof.
  eexists. split; [apply detectConflicts_connected|]. split.
  - cbn [Conflict.Out.message Conflict.Out.conflicts].
    unfold Spec.rendered, Spec.count_prefix.
    destruct (Spec.kept (Spec.request s e ex) rows); [reflexivity|].
    now rewrite !append_assoc.
  - apply numeral_reads_back.
Qed.

(** C9.  Calling the conflict subroutine twice with the same start, end
    and exclusion, the second call on the storage the first one left,
    gives the same result (the same conflicts, flag and message, or the
    same failure), and the storage is unchanged by both. *)
Theorem detectConflicts_twice db (s e : Date) (ex : option Z) :
  let first := Conflict.detectConflicts s e ex db in
  let second := Conflict.detectConflicts s e ex (snd first) in
  fst second = fst first /\ snd first = db /\ snd second = db.
Proof.
  cbv zeta. rewrite !detectConflicts_is_check.
  rewrite !checkConflicts_reads. auto.
Qed.

(** C10.  Every invocation of the conflict subroutine that returns,
    which is every invocation on a storage that answers, returns a flag
    hasConflicts that is true if and only if the returned conflicts are
    not empty; on a storage that fails the failure is raised as it is. *)
Theorem hasConflicts_iff_conflicts (s e : Date) (ex : option Z) :
  (forall rows, exists out,
      Conflict.detectConflicts s e ex (Connected rows)
        = (Js.Ok out, Connected rows) /\
      (Conflict.Out.hasConflicts out = true <->
       Conflict.Out.conflicts out <> [])) /\
  (forall error,
      Conflict.detectConflicts s e ex (Unavailable error)
        = (Js.Throw error, Unavailable error)).
Proof.
  split.
  - intros rows. eexists. split; [apply detectConflicts_connected|].
    simpl. destruct (Spec.kept _ rows) as [|event events]; simpl; split.
    + discriminate.
    + intros H. now elim H.
    + discriminate.
    + reflexivity.
  - intros error. reflexivity.
Qed.

End ConflictProperties.

(* ================================================================== *)
(** ** The tool catalog *)

Section ToolFacts.
Context {locale : Locale} {host : Host} {storage : Tools.Storage}.

Lemma allTools_guarded : Forall Spec.guarded Tools.allTools.
Proof.
  unfold Tools.allTools.
  repeat (apply Forall_cons;
          [eexists _, _; intros input; cbv beta; reflexivity|]).
  apply Forall_nil.
Qed.

Lemma guarded_returns tool :
  Spec.guarded tool ->
  forall input db, exists content db',
    Tools.func tool input db = (Js.Ok content, db').
Proof.
  intros (label & body & Hfunc) input db. rewrite Hfunc.
  apply try_catch_returns.
Qed.

(** A function that is one [try] block with the catch of the tools
    returns what the block returns, and the text of what it raises. *)
Lemma try_catch_catches tool label body :
  (forall input,
      Tools.func tool input = try_catch (body input) (Tools.catch_as label)) ->
  Spec.catches tool label body.
Proof.
  intros Hfunc input db. rewrite Hfunc. unfold try_catch.
  destruct (body input db) as [[text|[message|]] db']; reflexivity.
Qed.

(** Looking a tool of the catalog up by its name finds that tool. *)
Lemma find_in_allTools tool :
  In tool Tools.allTools ->
  find (fun t => (Tools.name t =? Tools.name tool)%string) Tools.allTools
  = Some tool.
Proof.
  unfold Tools.allTools. simpl In.
  intros H.
  repeat (destruct H as [<-|H]; [reflexivity|]).
  contradiction.
Qed.

End ToolFacts.

(* ================================================================== *)
(** ** The agent graph *)

Lemma last_message_app (l l' : list Agent.BaseMessage) :
  l' <> [] -> Agent.last_message (l ++ l') = Agent.last_message l'.
Proof.
  intros Hl'. unfold Agent.last_message.
  rewrite length_app.
  assert (0 < List.length l')%nat as Hlen
    by (destruct l'; [congruence | simpl; lia]).
  rewrite nth_error_app2 by lia. f_equal. lia.
Qed.

Lemma last_message_snoc (l : list Agent.BaseMessage) m :
  Agent.last_message (l ++ [m]) = Some m.
Proof. rewrite last_message_app by discriminate. reflexivity. Qed.

Lemma last_tool_messages (outputs : list Agent.BaseMessage) :
  outputs <> [] -> Forall Spec.is_tool_message outputs ->
  exists content call name,
    Agent.last_message outputs = Some (Agent.ToolMessage content call name).
Proof.
  intros Hne Hall.
  destruct (exists_last Hne) as (front & m & ->).
  rewrite last_message_snoc.
  apply Forall_app in Hall as [_ Hm].
  apply Forall_inv in Hm. destruct m; simpl in Hm; try contradiction.
  eauto.
Qed.

Lemma existsb_conflict_check calls :
  existsb Agent.is_conflict_check calls = true <->
  Spec.names_conflict_check calls.
Proof.
  unfold Spec.names_conflict_check, Agent.is_conflict_check.
  rewrite existsb_exists. split; intros (call & Hin & Hname); exists call;
    (split; [exact Hin|]); now apply String.eqb_eq.
Qed.

Section AgentFacts.
Context {locale : Locale} {host : Host} {storage : Tools.Storage}
        {provider : Agent.Provider}.

Lemma ToolNode_call_returns catalog call db :
  exists output db',
    Agent.ToolNode_call catalog call db = (Js.Ok output, db') /\
    Spec.is_tool_message output.
Proof.
  unfold Agent.ToolNode_call, try_catch.
  destruct (find _ catalog) as [tool|].
  - unfold bind. destruct (Tools.invoke tool (Agent.args call) db)
      as [[output|e] db']; simpl;
      eexists _, _; (split; [reflexivity | exact I]).
  - simpl. eexists _, _. split; [reflexivity | exact I].
Qed.

Lemma ToolNode_calls_returns catalog calls db :
  exists outputs db',
    Agent.ToolNode_calls catalog calls db = (Js.Ok outputs, db') /\
    List.length outputs = List.length calls /\
    Forall Spec.is_tool_message outputs.
Proof.
  revert db. induction calls as [|call calls IH]; intros db; simpl.
  - exists [], db. repeat split. constructor.
  - destruct (ToolNode_call_returns catalog call db) as (output & db1 & H1 & Ht).
    destruct (IH db1) as (outputs & db2 & H2 & Hlen & Hall).
    exists (output :: outputs), db2.
    rewrite (bind_Ok _ _ _ _ _ H1), (bind_Ok _ _ _ _ _ H2).
    repeat split; simpl; auto.
Qed.

Lemma last_message_inv (messages : list Agent.BaseMessage) m :
  Agent.last_message messages = Some m ->
  exists front, messages = (front ++ [ m ])%list.
Proof.
  intros Hlast. destruct messages as [|first rest]; [discriminate|].
  destruct (@exists_last _ (first :: rest)) as (front & m' & Heq);
    [discriminate|].
  rewrite Heq in *. rewrite last_message_snoc in Hlast.
  inversion Hlast; subst. eauto.
Qed.

(** On a transcript that ends with an AI message, that message is the one
    the tool node takes. *)
Lemma last_AIMessage_last messages content calls :
  Agent.last_message messages = Some (Agent.AIMessage content calls) ->
  Agent.last_AIMessage messages = Some (content, calls).
Proof.
  intros Hlast. apply last_message_inv in Hlast as (front & ->).
  unfold Agent.last_AIMessage. now rewrite fold_left_app.
Qed.

(** The tool node on a state that ends with an AI message. *)
Lemma ToolNode_returns catalog state content calls db :
  Agent.last_message (Agent.messages state)
    = Some (Agent.AIMessage content calls) ->
  exists outputs db',
    Agent.ToolNode catalog state db
      = (Js.Ok {| Agent.Update.messages := outputs;
                  Agent.Update.pendingEventCheck := None;
                  Agent.Update.conflictCheckResult := None |}, db') /\
    List.length outputs
      = List.length (Agent.dispatched (Agent.messages state) calls) /\
    Forall Spec.is_tool_message outputs.
Proof.
  intros Hlast. unfold Agent.ToolNode.
  rewrite (last_AIMessage_last _ _ _ Hlast).
  destruct (ToolNode_calls_returns catalog
              (Agent.dispatched (Agent.messages state) calls) db)
    as (outputs & db' & H & Hlen & Hall).
  exists outputs, db'. rewrite (bind_Ok _ _ _ _ _ H). auto.
Qed.

(** The step of [tools] on a state that ends with an AI message.  When a
    call is run, the state then ends with a tool-result message, in which
    the router finds no [tool_calls]; when every call was answered before,
    nothing is appended and the router reads the AI message. *)
Lemma tools_step state content calls db :
  Agent.last_message (Agent.messages state)
    = Some (Agent.AIMessage content calls) ->
  exists outputs db',
    Agent.step Agent.tools state db
      = (Js.Ok (match Agent.dispatched (Agent.messages state) calls with
                | [] =>
                    if existsb Agent.is_conflict_check calls
                    then Agent.goto Agent.conflict_detector
                    else Agent.goto Agent.agent
                | _ :: _ => Agent.goto Agent.agent
                end,
                {| Agent.messages := Agent.messages state ++ outputs;
                   Agent.pendingEventCheck := Agent.pendingEventCheck state;
                   Agent.conflictCheckResult :=
                     Agent.conflictCheckResult state |}), db') /\
    List.length outputs
      = List.length (Agent.dispatched (Agent.messages state) calls) /\
    Forall Spec.is_tool_message outputs.
Proof.
  intros Hlast.
  destruct (ToolNode_returns Tools.allTools state content calls db Hlast)
    as (outputs & db' & H & Hlen & Hall).
  exists outputs, db'. split; [|now split].
  unfold Agent.step. simpl Agent.run_node.
  rewrite (bind_Ok _ _ _ _ _ H). unfold ret, Agent.apply. simpl.
  unfold Agent.shouldCheckConflicts. simpl.
  destruct (Agent.dispatched (Agent.messages state) calls) as [|call rest].
  - destruct outputs; [|discriminate].
    rewrite app_nil_r, Hlast. simpl.
    destruct (existsb Agent.is_conflict_check calls); reflexivity.
  - assert (outputs <> []) as Hne by (destruct outputs; discriminate).
    destruct (last_tool_messages outputs Hne Hall) as (c & i & n & Hlast').
    rewrite last_message_app by exact Hne. rewrite Hlast'. reflexivity.
Qed.

Lemma agent_step state db response :
  Agent.modelWithTools_invoke (Agent.messages state) = Js.Ok response ->
  Agent.step Agent.agent state db =
  (Js.Ok (match Agent.Reply.tool_calls response with
          | [] => Agent.END
          | _ :: _ => Agent.goto Agent.tools
          end,
          {| Agent.messages :=
               Agent.messages state ++
               [ Agent.AIMessage (Agent.Reply.content response)
                                 (Agent.Reply.tool_calls response) ];
             Agent.pendingEventCheck := Agent.pendingEventCheck state;
             Agent.conflictCheckResult := Agent.conflictCheckResult state |}),
   db).
Proof.
  intros Hreply. unfold Agent.step, bind. simpl Agent.run_node.
  unfold Agent.callModel. rewrite Hreply. unfold ret, Agent.apply. simpl.
  unfold Agent.shouldContinue. simpl. rewrite last_message_snoc. simpl.
  destruct (Agent.Reply.tool_calls response); reflexivity.
Qed.

Lemma agent_step_throws state db e :
  Agent.modelWithTools_invoke (Agent.messages state) = Js.Throw e ->
  Agent.step Agent.agent state db = (Js.Throw e, db).
Proof.
  intros Hreply. unfold Agent.step, bind. simpl Agent.run_node.
  unfold Agent.callModel. rewrite Hreply. reflexivity.
Qed.



End AgentFacts.

Section AgentProperties.
Context {locale : Locale} {host : Host} {storage : Tools.Storage}
        {provider : Agent.Provider}.

(** No node writes a pending request, and the conflict node without one
    writes [null] as its result: both channels stay at their default. *)
Lemma step_keeps_null n state db dest state' db' :
  Agent.pendingEventCheck state = None ->
  Agent.conflictCheckResult state = None ->
  Agent.step n state db = (Js.Ok (dest, state'), db') ->
  Agent.pendingEventCheck state' = None /\
  Agent.conflictCheckResult state' = None.
Proof.
  intros Hp Hr. destruct n.
  - destruct (Agent.modelWithTools_invoke (Agent.messages state))
      as [response|e] eqn:Hreply.
    + rewrite (agent_step _ _ _ Hreply). intros H; inversion H; subst.
      simpl. auto.
    + rewrite (agent_step_throws _ _ _ Hreply). discriminate.
  - unfold Agent.step. simpl Agent.run_node. unfold Agent.ToolNode.
    destruct (Agent.last_AIMessage (Agent.messages state)) as [[c calls]|];
      try (unfold bind, throw; discriminate).
    destruct (ToolNode_calls_returns Tools.allTools
                (Agent.dispatched (Agent.messages state) calls) db)
      as (outputs & db1 & H & _).
    rewrite (bind_Ok _ _ _ _ _ (bind_Ok _ _ _ _ _ H)). unfold ret.
    intros H'; inversion H'; subst. simpl. auto.
  - unfold Agent.step. simpl Agent.run_node. unfold Agent.checkConflicts.
    rewrite Hp. unfold bind, ret.
    intros H'; inversion H'; subst. simpl. auto.
Qed.

Lemma run_keeps_null fuel : forall n state db final db',
  Agent.pendingEventCheck state = None ->
  Agent.conflictCheckResult state = None ->
  Agent.run fuel n state db = (Js.Ok (Some final), db') ->
  Agent.pendingEventCheck final = None /\
  Agent.conflictCheckResult final = None.
Proof.
  induction fuel as [|fuel IH]; intros n state db final db' Hp Hr; simpl.
  - discriminate.
  - unfold bind at 1.
    destruct (Agent.step n state db) as [[[dest state1]|e] db1] eqn:Hstep;
      [|discriminate].
    destruct (step_keeps_null _ _ _ _ _ _ Hp Hr Hstep) as [Hp1 Hr1].
    destruct dest as [n1|].
    + apply IH; assumption.
    + intros H. inversion H; subst. auto.
Qed.

(** The conflict node on a storage that answers, when a request is
    pending: the request is consumed and the message stored. *)
Lemma conflict_detector_step state rows s e ex :
  Agent.pendingEventCheck state
    = Some {| Agent.Pending.startTime := s;
              Agent.Pending.endTime := e;
              Agent.Pending.excludeEventId := ex |} ->
  Agent.step Agent.conflict_detector state (Connected rows) =
  (Js.Ok (Agent.goto Agent.agent,
          {| Agent.messages := Agent.messages state;
             Agent.pendingEventCheck := None;
             Agent.conflictCheckResult :=
               Some (Spec.rendered (Spec.kept (Spec.request s e ex) rows)) |}),
   Connected rows).
Proof.
  intros Hp. unfold Agent.step. simpl Agent.run_node.
  unfold Agent.checkConflicts. rewrite Hp. simpl.
  change {| Conflict.startTime := s; Conflict.endTime := e;
            Conflict.excludeEventId := ex; Conflict.conflicts := [];
            Conflict.hasConflicts := false; Conflict.message := Js.empty |}
    with (Spec.request s e ex).
  rewrite (bind_Ok _ _ _ _ _ (bind_Ok _ _ _ _ _ (invoke_connected _ rows))).
  unfold ret, Agent.apply. simpl.
  rewrite render_rendered, app_nil_r. reflexivity.
Qed.

(** The tool on a storage that answers, for arguments that parse. *)
Lemma checkEventConflicts_connected input rows s e :
  Date_parse (Tools.CheckArgs.startTime input) = Some s ->
  Date_parse (Tools.CheckArgs.endTime input) = Some e ->
  Tools.checkEventConflicts_func input (Connected rows) =
  (Js.Ok (Spec.rendered
            (Spec.kept
               (Spec.request s e (Tools.CheckArgs.excludeEventId input))
               rows)),
   Connected rows).
Proof.
  intros Hs He. unfold Tools.checkEventConflicts_func.
  apply try_catch_Ok. unfold Tools.new_Date. rewrite Hs, He.
  unfold bind at 1. unfold ret at 1. unfold bind at 1. unfold ret at 1.
  rewrite (bind_Ok _ _ _ _ _ (detectConflicts_connected _ _ _ rows)).
  reflexivity.
Qed.

(** The conflict tool on every input and storage: the rendered message,
    or the text of what went wrong. *)
Lemma checkEventConflicts_func_total input db :
  Tools.checkEventConflicts_func input db =
  (Js.Ok
     match Date_parse (Tools.CheckArgs.startTime input),
           Date_parse (Tools.CheckArgs.endTime input) with
     | Some s, Some e =>
         match db with
         | Connected rows =>
             Spec.rendered
               (Spec.kept
                  (Spec.request s e (Tools.CheckArgs.excludeEventId input))
                  rows)
         | Unavailable error =>
             Tools.catch_as "Error checking conflicts" error
         end
     | _, _ => Tools.catch_as "Error checking conflicts" invalid_time_value
     end, db).
Proof.
  destruct (Date_parse (Tools.CheckArgs.startTime input)) as [s|] eqn:Hs.
  - destruct (Date_parse (Tools.CheckArgs.endTime input)) as [e|] eqn:He.
    + destruct db as [rows|error].
      * apply (checkEventConflicts_connected _ _ _ _ Hs He).
      * unfold Tools.checkEventConflicts_func, Tools.new_Date.
        rewrite Hs, He. reflexivity.
    + unfold Tools.checkEventConflicts_func, Tools.new_Date.
      rewrite Hs, He. reflexivity.
  - unfold Tools.checkEventConflicts_func, Tools.new_Date.
    rewrite Hs. reflexivity.
Qed.

(** C2, on the code.  [shouldCheckConflicts] reads the last message of
    the state after the tools node has appended its tool-result messages.
    When the node dispatched one or more calls, that message is a
    tool-result message without [tool_calls] and the next state is
    [agent], also when a dispatched call names [check_event_conflicts].
    When the node dispatched nothing (every call of the last AI message
    is answered already), the next state is [conflict_detector] exactly
    when one of those calls names the tool. *)
Theorem tools_route_ignores_dispatched_calls state content calls db :
  Agent.last_message (Agent.messages state)
    = Some (Agent.AIMessage content calls) ->
  exists dest state' db',
    Agent.step Agent.tools state db = (Js.Ok (dest, state'), db') /\
    (Agent.dispatched (Agent.messages state) calls <> [] ->
     dest = Agent.goto Agent.agent) /\
    (Agent.dispatched (Agent.messages state) calls = [] ->
     (dest = Agent.goto Agent.conflict_detector <->
      Spec.names_conflict_check calls)).
Proof.
  intros Hlast.
  destruct (tools_step state content calls db Hlast)
    as (outputs & db' & Hstep & _).
  eexists _, _, _. split; [exact Hstep|].
  destruct (Agent.dispatched (Agent.messages state) calls) as [|call rest].
  - split; [congruence|]. intros _.
    rewrite <- existsb_conflict_check.
    destruct (existsb Agent.is_conflict_check calls); split;
      congruence || discriminate.
  - split; [reflexivity|discriminate].
Qed.

(** C3, on the code.  No node writes the pending request: a step from a
    state without a pending request and without a conflict result leads to
    such a state, so a turn that ends, ends without either, whatever calls
    the model made. *)
Theorem pending_check_never_populated :
  (forall n state db dest state' db',
      Agent.pendingEventCheck state = None ->
      Agent.conflictCheckResult state = None ->
      Agent.step n state db = (Js.Ok (dest, state'), db') ->
      Agent.pendingEventCheck state' = None /\
      Agent.conflictCheckResult state' = None) /\
  (forall fuel messages db final db',
      Agent.app_invoke fuel messages db = (Js.Ok (Some final), db') ->
      Agent.pendingEventCheck final = None /\
      Agent.conflictCheckResult final = None).
Proof.
  split.
  - intros n state db dest state' db'. apply step_keeps_null.
  - intros fuel messages db final db'. unfold Agent.app_invoke.
    apply run_keeps_null; reflexivity.
Qed.


(** C6, on the code.  For arguments that the tool accepts and a storage
    that answers, the tool [check_event_conflicts] returns the rendered
    message of the check, while the [conflict_detector] step of a state
    without a pending request (no node writes one) runs no check and
    stores [null] as its result. *)
Theorem conflict_step_stores_null_where_tool_answers rows
    (args : Json.object) (input : Tools.CheckArgs.t) (s e : Date)
    (state : Agent.AgentState) :
  Tools.checkEventConflicts_parse args = Some input ->
  Date_parse (Tools.CheckArgs.startTime input) = Some s ->
  Date_parse (Tools.CheckArgs.endTime input) = Some e ->
  Agent.pendingEventCheck state = None ->
  exists text state',
    Tools.invoke Tools.checkEventConflicts args (Connected rows)
      = (Js.Ok text, Connected rows) /\
    text = Spec.rendered
             (Spec.kept
                (Spec.request s e (Tools.CheckArgs.excludeEventId input))
                rows) /\
    Agent.step Agent.conflict_detector state (Connected rows)
      = (Js.Ok (Agent.goto Agent.agent, state'), Connected rows) /\
    Agent.messages state' = Agent.messages state /\
    Agent.conflictCheckResult state' = None.
Proof.
  intros Hparse Hs He Hp. eexists _, _. split; [|split; [reflexivity|]].
  - unfold Tools.invoke. simpl. rewrite Hparse.
    apply (checkEventConflicts_connected _ _ _ _ Hs He).
  - unfold Agent.step. simpl Agent.run_node.
    unfold Agent.checkConflicts. rewrite Hp.
    unfold bind, ret. split; [reflexivity|].
    simpl. split; [apply app_nil_r|reflexivity].
Qed.

(** C8.  What the body of a tool raises is caught inside the tool and
    comes back as its text, [<label>: <message>] with the label of that
    tool and the message of the error ([Unknown error] for a thrown value
    that is no [Error] object); the conflict tool returns the rendered
    message or such a text on every input and storage.  So every tool
    function returns a text on every input.  Dispatching a call to a tool
    of the catalog puts the text the tool returned in the content of the
    tool message of that call; what is raised before the tool's function
    runs (arguments the schema refuses, a name that is not in the
    catalog) becomes the content of the tool message too; and dispatching
    any calls returns one tool message per call and raises nothing. *)
Theorem tool_failures_become_results :
  (Spec.catches Tools.createEventType "Error creating event type"
     Tools.try_createEventType /\
   Spec.catches Tools.listEventTypes "Error listing event types"
     Tools.try_listEventTypes /\
   Spec.catches Tools.createEvent "Error creating event"
     Tools.try_createEvent /\
   Spec.catches Tools.getEvent "Error getting event" Tools.try_getEvent /\
   Spec.catches Tools.listEvents "Error listing events"
     Tools.try_listEvents /\
   Spec.catches Tools.updateEvent "Error updating event"
     Tools.try_updateEvent /\
   Spec.catches Tools.deleteEvent "Error deleting event"
     Tools.try_deleteEvent /\
   Spec.catches Tools.addAttendee "Error adding attendee"
     Tools.try_addAttendee /\
   Spec.catches Tools.updateAttendeeStatus "Error updating attendee status"
     Tools.try_updateAttendeeStatus /\
   Spec.catches Tools.removeAttendee "Error removing attendee"
     Tools.try_removeAttendee /\
   Spec.catches Tools.listEventAttendees "Error listing attendees"
     Tools.try_listEventAttendees /\
   Spec.catches Tools.createReminder "Error creating reminder"
     Tools.try_createReminder /\
   Spec.catches Tools.listReminders "Error listing reminders"
     Tools.try_listReminders /\
   Spec.catches Tools.markReminderSent "Error marking reminder as sent"
     Tools.try_markReminderSent) /\
  (forall input db,
      Tools.func Tools.checkEventConflicts input db =
      (Js.Ok
         match Date_parse (Tools.CheckArgs.startTime input),
               Date_parse (Tools.CheckArgs.endTime input) with
         | Some s, Some e =>
             match db with
             | Connected rows =>
                 Spec.rendered
                   (Spec.kept
                      (Spec.request s e
                         (Tools.CheckArgs.excludeEventId input))
                      rows)
             | Unavailable (Js.Error message) =>
                 "Error checking conflicts: " ++ message
             | Unavailable Js.Thrown =>
                 "Error checking conflicts: Unknown error"
             end
         | _, _ =>
             match invalid_time_value with
             | Js.Error message => "Error checking conflicts: " ++ message
             | Js.Thrown => "Error checking conflicts: Unknown error"
             end
         end, db)) /\
  Forall (fun tool =>
            forall input db, exists content db',
              Tools.func tool input db = (Js.Ok content, db'))
         Tools.allTools /\
  (forall tool call db,
      In tool Tools.allTools ->
      Agent.name call = Tools.name tool ->
      Agent.ToolNode_call Tools.allTools call db =
      match Tools.parse tool (Agent.args call) with
      | Some input =>
          match Tools.func tool input db with
          | (Js.Ok text, db') =>
              (Js.Ok (Agent.ToolMessage text (Agent.id call)
                                        (Tools.name tool)), db')
          | (Js.Throw error, db') =>
              (Js.Ok (Agent.ToolMessage (Agent.tool_error_content error)
                                        (Agent.id call) (Agent.name call)),
               db')
          end
      | None =>
          (Js.Ok (Agent.ToolMessage
                    (Agent.tool_error_content ToolInputParsingException)
                    (Agent.id call) (Agent.name call)), db)
      end) /\
  (forall call db,
      find (fun t => (Tools.name t =? Agent.name call)%string) Tools.allTools
        = None ->
      Agent.ToolNode_call Tools.allTools call db =
      (Js.Ok (Agent.ToolMessage
                (Agent.tool_error_content
                   (Agent.tool_not_found (Agent.name call)))
                (Agent.id call) (Agent.name call)), db)) /\
  (forall calls db, exists outputs db',
      Agent.ToolNode_calls Tools.allTools calls db = (Js.Ok outputs, db') /\
      List.length outputs = List.length calls /\
      Forall Spec.is_tool_message outputs).
Proof.
  split; [|split; [|split; [|split; [|split]]]].
  - repeat split; apply try_catch_catches; intros input; reflexivity.
  - intros input db. simpl Tools.func.
    rewrite checkEventConflicts_func_total.
    destruct (Date_parse (Tools.CheckArgs.startTime input));
      destruct (Date_parse (Tools.CheckArgs.endTime input));
      try (unfold Tools.catch_as; destruct invalid_time_value; reflexivity).
    destruct db as [rows|[message|]]; reflexivity.
  - eapply Forall_impl; [|exact allTools_guarded].
    intros tool. apply guarded_returns.
  - intros tool call db Hin Hname.
    unfold Agent.ToolNode_call, try_catch. rewrite Hname.
    rewrite (find_in_allTools tool Hin).
    unfold bind, Tools.invoke.
    destruct (Tools.parse tool (Agent.args call)) as [input|];
      [|reflexivity].
    destruct (Tools.func tool input db) as [[text|error] db'];
      reflexivity.
  - intros call db Hfind.
    unfold Agent.ToolNode_call, try_catch. rewrite Hfind. reflexivity.
  - intros calls db. apply ToolNode_calls_returns.
Qed.

End AgentProperties.

(* ================================================================== *)
(** ** The scenarios, evaluated *)

(** Scenario 2 of the specification, with an exclusion that is not A's:
    A ends at 11:00 where the candidate range starts. *)
Lemma overlap_iff_inclusive_witness :
  In Scenario.A [ Scenario.A; Scenario.Z0 ] /\
  Spec.excludes (Some 2%Z) Scenario.A = false /\
  exists out,
    Scenario.detectConflicts 660%Z 720%Z (Some 2%Z)
      (Connected [ Scenario.A; Scenario.Z0 ])
      = (Js.Ok out, Connected [ Scenario.A; Scenario.Z0 ]) /\
    (In (Conflict.select Scenario.A) (Conflict.Out.conflicts out) <->
     (Schema.endTime Scenario.A >= 660 /\ Schema.startTime Scenario.A <= 720)%Z) /\
    ((Schema.startTime Scenario.A <= Schema.endTime Scenario.A)%Z ->
     (660 <= 720)%Z ->
     Schema.endTime Scenario.A = 660%Z \/ Schema.startTime Scenario.A = 720%Z ->
     In (Conflict.select Scenario.A) (Conflict.Out.conflicts out)).
Proof.
  split; [left; reflexivity|]. split; [reflexivity|].
  apply (@overlap_iff_inclusive Scenario.locale
           [ Scenario.A; Scenario.Z0 ] 660%Z 720%Z (Some 2%Z) Scenario.A).
  - left; reflexivity.
  - reflexivity.
Defined.

(** Scenario 3 of the specification: A is excluded by its identifier. *)
Lemma excluded_event_is_not_reported_witness :
  Spec.serial_ids [ Scenario.A ] /\
  exists out,
    Scenario.detectConflicts 630%Z 690%Z (Some 1%Z) Scenario.calendar
      = (Js.Ok out, Scenario.calendar) /\
    forall event, In event (Conflict.Out.conflicts out) ->
                  Conflict.Event.id event <> 1%Z.
Proof.
  assert (Spec.serial_ids [ Scenario.A ]) as Hids.
  { intros row [<-|[]]. simpl. lia. }
  split; [exact Hids|].
  apply (@excluded_event_is_not_reported Scenario.locale [ Scenario.A ]
           630%Z 690%Z 1%Z Hids).
Defined.

(** C7 as stated fails on the events A and D around 10:30 to 11:30: the
    lines of the message start with the list mark, an ASCII hyphen stands
    between the two instants, and nothing follows the line of D, whose
    location is the empty text. *)
Lemma message_is_not_the_specified_text :
  exists out,
    Scenario.detectConflicts 630%Z 690%Z None
        (Connected [ Scenario.A; Week.D ])
      = (Js.Ok out, Connected [ Scenario.A; Week.D ]) /\
    Conflict.Out.conflicts out
      = [ Conflict.select Scenario.A; Conflict.select Week.D ] /\
    Conflict.Event.location (Conflict.select Week.D) = Some EmptyString /\
    Conflict.Out.message out
      = ("⚠️  Found 2 conflicting event(s):" ++ String "010"%char
         ("  - " ++ String "034"%char ("A" ++ String "034"%char
         (" (600 - 660)" ++ String "010"%char
         ("  - " ++ String "034"%char ("D" ++ String "034"%char
         (" (600 - 660)" ++ String "010"%char EmptyString)))))))%string /\
    Spec.rendered_as_specified (locale := Scenario.locale)
        (Conflict.Out.conflicts out)
      = ("⚠️  Found 2 conflicting event(s):" ++ String "010"%char
         (String "034"%char ("A" ++ String "034"%char
         (" (600 – 660)" ++ String "010"%char
         (String "034"%char ("D" ++ String "034"%char
         (" (600 – 660) at " ++ String "010"%char EmptyString)))))))%string /\
    (Conflict.Out.message out
     =? Spec.rendered_as_specified (locale := Scenario.locale)
          (Conflict.Out.conflicts out))%string = false.
Proof.
  eexists. split; [reflexivity|]. repeat split; reflexivity.
Qed.

(** The same check on those two events: the count line, then the lines
    of A and D. *)
Lemma message_is_rendered_witness :
  exists out,
    Scenario.detectConflicts 630%Z 690%Z None
        (Connected [ Scenario.A; Week.D ])
      = (Js.Ok out, Connected [ Scenario.A; Week.D ]) /\
    Conflict.Out.message out =
      match Conflict.Out.conflicts out with
      | [] => "✓ No conflicts found"
      | _ :: _ =>
          ("⚠️  Found "
             ++ Spec.numeral (List.length (Conflict.Out.conflicts out))
             ++ " conflicting event(s):" ++ String "010"%char EmptyString
             ++ Spec.enumeration (locale := Scenario.locale)
                  (Conflict.Out.conflicts out))%string
      end /\
    option_map Nat.of_uint
      (NilZero.uint_of_string
         (Spec.numeral (List.length (Conflict.Out.conflicts out))))
      = Some (List.length (Conflict.Out.conflicts out)).
Proof.
  apply (@message_is_rendered Scenario.locale [ Scenario.A; Week.D ]
           630%Z 690%Z None).
Defined.

(** The tool called with 10:30 to 11:30 returns the conflict with A; the
    [conflict_detector] step, in the state in which the graph reaches it,
    stores no result. *)
Lemma conflict_step_stores_null_where_tool_answers_witness :
  Tools.checkEventConflicts_parse (Agent.args Scenario.check_call)
    = Some {| Tools.CheckArgs.startTime := "2024-01-01T10:30";
              Tools.CheckArgs.endTime := "2024-01-01T11:30";
              Tools.CheckArgs.excludeEventId := None |} /\
  Agent.pendingEventCheck Week.asked_again = None /\
  exists text state',
    @Tools.invoke Scenario.host
        (@Tools.checkEventConflicts Scenario.locale Scenario.host)
        (Agent.args Scenario.check_call) Scenario.calendar
      = (Js.Ok text, Scenario.calendar) /\
    text = Spec.rendered (locale := Scenario.locale)
             (Spec.kept (Spec.request 630%Z 690%Z None) [ Scenario.A ]) /\
    @Agent.step Scenario.locale Scenario.host Scenario.storage Week.insistent
        Agent.conflict_detector Week.asked_again Scenario.calendar
      = (Js.Ok (Agent.goto Agent.agent, state'), Scenario.calendar) /\
    Agent.messages state' = Agent.messages Week.asked_again /\
    Agent.conflictCheckResult state' = None.
Proof.
  split; [reflexivity|]. split; [reflexivity|].
  apply (@conflict_step_stores_null_where_tool_answers Scenario.locale
           Scenario.host Scenario.storage Week.insistent [ Scenario.A ]
           (Agent.args Scenario.check_call)
           {| Tools.CheckArgs.startTime := "2024-01-01T10:30";
              Tools.CheckArgs.endTime := "2024-01-01T11:30";
              Tools.CheckArgs.excludeEventId := None |}
           630%Z 690%Z Week.asked_again); reflexivity.
Defined.

(** How the graph reaches the [conflict_detector] step: the model asks
    for the check, the tools run it, the model asks again under the same
    call identifier, the tools find the call answered and dispatch
    nothing, and the router reads the model's message. *)
Example conflict_detector_is_reached :
  let step := @Agent.step Scenario.locale Scenario.host Scenario.storage
                Week.insistent in
  step Agent.agent Scenario.initial Scenario.calendar
    = (Js.Ok (Agent.goto Agent.tools, Scenario.asked), Scenario.calendar) /\
  step Agent.tools Scenario.asked Scenario.calendar
    = (Js.Ok (Agent.goto Agent.agent, Week.answered), Scenario.calendar) /\
  step Agent.agent Week.answered Scenario.calendar
    = (Js.Ok (Agent.goto Agent.tools, Week.asked_again), Scenario.calendar) /\
  Agent.dispatched (Agent.messages Week.asked_again) [ Scenario.check_call ]
    = [] /\
  step Agent.tools Week.asked_again Scenario.calendar
    = (Js.Ok (Agent.goto Agent.conflict_detector, Week.asked_again),
       Scenario.calendar) /\
  step Agent.conflict_detector Week.asked_again Scenario.calendar
    = (Js.Ok (Agent.goto Agent.agent, Week.asked_again), Scenario.calendar).
Proof. repeat split; reflexivity. Qed.


(** The turn in which the model asks for the conflict check: the tools run
    the call, the graph goes back to [agent], and the turn ends with the
    tool's text in the transcript and the two conflict channels empty. *)
Example conflict_check_turn :
  Scenario.step Agent.agent Scenario.initial Scenario.calendar
    = (Js.Ok (Agent.goto Agent.tools, Scenario.asked), Scenario.calendar) /\
  Scenario.app_invoke 4 Scenario.user_asks Scenario.calendar
    = (Js.Ok (Some
         {| Agent.messages :=
              Scenario.user_asks ++
              [ Agent.AIMessage EmptyString [ Scenario.check_call ];
                Agent.ToolMessage
                  (Spec.rendered (locale := Scenario.locale)
                     [ Conflict.select Scenario.A ])
                  "call_1" "check_event_conflicts";
                Agent.AIMessage "That slot is taken." [] ];
            Agent.pendingEventCheck := None;
            Agent.conflictCheckResult := None |}),
       Scenario.calendar).
Proof. split; reflexivity. Qed.

(** The one call of the last message names the conflict-check tool and
    is dispatched, and the next state is [agent]. *)
Lemma tools_route_ignores_dispatched_calls_witness :
  Agent.last_message (Agent.messages Scenario.asked)
    = Some (Agent.AIMessage EmptyString [ Scenario.check_call ]) /\
  Agent.dispatched (Agent.messages Scenario.asked) [ Scenario.check_call ]
    = [ Scenario.check_call ] /\
  Spec.names_conflict_check [ Scenario.check_call ] /\
  exists dest state' db',
    Scenario.step Agent.tools Scenario.asked Scenario.calendar
      = (Js.Ok (dest, state'), db') /\
    (Agent.dispatched (Agent.messages Scenario.asked) [ Scenario.check_call ]
       <> [] ->
     dest = Agent.goto Agent.agent) /\
    (Agent.dispatched (Agent.messages Scenario.asked) [ Scenario.check_call ]
       = [] ->
     (dest = Agent.goto Agent.conflict_detector <->
      Spec.names_conflict_check [ Scenario.check_call ])).
Proof.
  split; [reflexivity|]. split; [reflexivity|]. split.
  - exists Scenario.check_call. split; [left|]; reflexivity.
  - apply (@tools_route_ignores_dispatched_calls Scenario.locale
             Scenario.host Scenario.storage Scenario.provider Scenario.asked
             EmptyString [ Scenario.check_call ] Scenario.calendar).
    reflexivity.
Defined.

(** The same turn ends without a pending request and without a result. *)
Lemma pending_check_never_populated_witness :
  exists final,
    Scenario.app_invoke 4 Scenario.user_asks Scenario.calendar
      = (Js.Ok (Some final), Scenario.calendar) /\
    Agent.pendingEventCheck final = None /\
    Agent.conflictCheckResult final = None.
Proof.
  eexists. split; [reflexivity|].
  apply (proj2 (@pending_check_never_populated Scenario.locale Scenario.host
                  Scenario.storage Scenario.provider)
           4%nat Scenario.user_asks Scenario.calendar _ Scenario.calendar).
  reflexivity.
Defined.

(** Four calls, three of which fail, give four tool-result messages. *)
Lemma tool_failures_become_results_witness :
  exists outputs db',
    Scenario.dispatch
      [ Scenario.create_call; Scenario.bad_call; Scenario.unknown_call;
        Scenario.check_call ] Scenario.calendar
      = (Js.Ok outputs, db') /\
    List.length outputs = 4%nat /\
    Forall Spec.is_tool_message outputs.
Proof.
  apply (proj2 (proj2 (proj2 (proj2 (proj2
           (@tool_failures_become_results Scenario.locale Scenario.host
              Scenario.storage Scenario.provider)))))).
Defined.

(** What the four messages say. *)
Example failing_calls_are_reported :
  Scenario.dispatch
    [ Scenario.create_call; Scenario.bad_call; Scenario.unknown_call;
      Scenario.check_call ] Scenario.calendar
  = (Js.Ok
       [ Agent.ToolMessage "Error creating event: permission denied"
           "call_2" "create_event";
         Agent.ToolMessage
           ("Error: Received tool input did not match expected schema"
              ++ Js.newline ++ " Please fix your mistakes.")
           "call_3" "check_event_conflicts";
         Agent.ToolMessage
           ("Error: Tool " ++ Js.quote ++ "send_invitation" ++ Js.quote
              ++ " not found." ++ Js.newline ++ " Please fix your mistakes.")
           "call_4" "send_invitation";
         Agent.ToolMessage
           (Spec.rendered (locale := Scenario.locale)
              [ Conflict.select Scenario.A ])
           "call_1" "check_event_conflicts" ],
     Scenario.calendar).
Proof. reflexivity. Qed.

(* ================================================================== *)
(** ** More about the conflict detection subgraph *)

Lemma and_request s e ex row :
  Conflict.and_ (Conflict.conditions (Spec.request s e ex)) row =
  (s <=? Schema.endTime row)%Z && (Schema.startTime row <=? e)%Z
  && negb (Spec.excludes ex row).
Proof. apply and_conditions. Qed.

(** The query with an exclusion keeps what the query without it keeps,
    less the rows of the excluded identifier. *)
Lemma kept_excluding s e x rows :
  x <> 0%Z ->
  Spec.kept (Spec.request s e (Some x)) rows =
  filter (fun event => negb (Conflict.Event.id event =? x)%Z)
         (Spec.kept (Spec.request s e None) rows).
Proof.
  intros Hx. unfold Spec.kept.
  induction rows as [|row rows IH]; [reflexivity|].
  simpl filter. rewrite !and_request. simpl Spec.excludes.
  apply Z.eqb_neq in Hx. rewrite Hx.
  destruct (s <=? Schema.endTime row)%Z;
    destruct (Schema.startTime row <=? e)%Z;
    destruct (Schema.id row =? x)%Z eqn:Hid; simpl;
    rewrite ?Hid; simpl; rewrite ?IH; reflexivity.
Qed.

Section ConflictExtras.
Context {locale : Locale}.

(** X1.  Every conflict the check reports is a stored event that overlaps
    the candidate range, boundaries included, and that the exclusion does
    not remove: nothing else is ever reported. *)
Theorem reported_conflicts_are_stored rows (s e : Date) (ex : option Z) :
  exists out,
    Conflict.detectConflicts s e ex (Connected rows)
      = (Js.Ok out, Connected rows) /\
    forall event, In event (Conflict.Out.conflicts out) ->
      exists E,
        In E rows /\ Conflict.select E = event /\
        (Schema.endTime E >= s /\ Schema.startTime E <= e)%Z /\
        Spec.excludes ex E = false.
Proof.
  eexists. split; [apply detectConflicts_connected|].
  simpl. intros event Hin.
  apply kept_inv in Hin as (E & HE & Hsel & Hp).
  exists E. rewrite and_request in Hp.
  apply andb_true_iff in Hp as [Hp Hex].
  apply andb_true_iff in Hp as [Hs He].
  apply Z.leb_le in Hs, He. apply negb_true_iff in Hex.
  repeat split; auto; lia.
Qed.

(** X2.  Conflicts are mutual: checking the range of a stored event B
    against a calendar that holds A reports A if and only if checking the
    range of A against a calendar that holds B reports B. *)
Theorem conflicts_are_mutual rows_a rows_b (A B : Schema.events) :
  In A rows_a ->
  In B rows_b ->
  exists for_b for_a,
    Conflict.detectConflicts (Schema.startTime B) (Schema.endTime B) None
        (Connected rows_a)
      = (Js.Ok for_b, Connected rows_a) /\
    Conflict.detectConflicts (Schema.startTime A) (Schema.endTime A) None
        (Connected rows_b)
      = (Js.Ok for_a, Connected rows_b) /\
    (In (Conflict.select A) (Conflict.Out.conflicts for_b) <->
     In (Conflict.select B) (Conflict.Out.conflicts for_a)).
Proof.
  intros HA HB. eexists _, _.
  split; [apply detectConflicts_connected|].
  split; [apply detectConflicts_connected|].
  simpl. rewrite (In_kept _ _ _ HA), (In_kept _ _ _ HB), !and_request.
  simpl. rewrite !andb_true_r, !andb_true_iff, !Z.leb_le. tauto.
Qed.

(** X3.  Widening the candidate range loses no conflict: what is reported
    for [s, e] is reported for every range that starts no later and ends
    no earlier. *)
Theorem wider_range_keeps_conflicts rows (s e s' e' : Date)
    (ex : option Z) :
  (s' <= s)%Z ->
  (e <= e')%Z ->
  exists out out',
    Conflict.detectConflicts s e ex (Connected rows)
      = (Js.Ok out, Connected rows) /\
    Conflict.detectConflicts s' e' ex (Connected rows)
      = (Js.Ok out', Connected rows) /\
    incl (Conflict.Out.conflicts out) (Conflict.Out.conflicts out').
Proof.
  intros Hs He. eexists _, _.
  split; [apply detectConflicts_connected|].
  split; [apply detectConflicts_connected|].
  simpl. intros event Hin.
  apply kept_inv in Hin as (E & HE & <- & Hp).
  apply (In_kept _ _ _ HE). rewrite and_request in *.
  apply andb_true_iff in Hp as [Hp Hex].
  apply andb_true_iff in Hp as [H1 H2]. apply Z.leb_le in H1, H2.
  rewrite Hex, andb_true_r. apply andb_true_iff.
  split; apply Z.leb_le; lia.
Qed.

(** X4.  An exclusion identifier other than 0 only filters: the conflicts
    reported with it are the conflicts reported without it, in the same
    order, less those of the excluded identifier. *)
Theorem exclusion_filters_conflicts rows (s e : Date) (excluded : Z) :
  excluded <> 0%Z ->
  exists out_all out,
    Conflict.detectConflicts s e None (Connected rows)
      = (Js.Ok out_all, Connected rows) /\
    Conflict.detectConflicts s e (Some excluded) (Connected rows)
      = (Js.Ok out, Connected rows) /\
    Conflict.Out.conflicts out =
    filter (fun event => negb (Conflict.Event.id event =? excluded)%Z)
           (Conflict.Out.conflicts out_all).
Proof.
  intros Hx. eexists _, _.
  split; [apply detectConflicts_connected|].
  split; [apply detectConflicts_connected|].
  simpl. apply kept_excluding, Hx.
Qed.

(** X5.  The message alone tells whether there are conflicts: it is the
    fixed text of no conflict if and only if the flag hasConflicts is
    false. *)
Theorem message_tells_conflicts rows (s e : Date) (ex : option Z) :
  exists out,
    Conflict.detectConflicts s e ex (Connected rows)
      = (Js.Ok out, Connected rows) /\
    (Conflict.Out.message out = "✓ No conflicts found" <->
     Conflict.Out.hasConflicts out = false).
Proof.
  eexists. split; [apply detectConflicts_connected|].
  simpl. destruct (Spec.kept _ rows) as [|event events]; simpl.
  - split; reflexivity.
  - split; discriminate.
Qed.

(** X6.  A range given with its end before its start under-reports: every
    conflict reported for it is reported for the range with the two
    instants in order, and spans from the one to the other. *)
Theorem inverted_range_under_reports rows (s e : Date) (ex : option Z) :
  (e < s)%Z ->
  exists out swapped,
    Conflict.detectConflicts s e ex (Connected rows)
      = (Js.Ok out, Connected rows) /\
    Conflict.detectConflicts e s ex (Connected rows)
      = (Js.Ok swapped, Connected rows) /\
    incl (Conflict.Out.conflicts out) (Conflict.Out.conflicts swapped) /\
    forall event, In event (Conflict.Out.conflicts out) ->
      (Conflict.Event.startTime event <= e /\
       s <= Conflict.Event.endTime event)%Z.
Proof.
  intros Hes. eexists _, _.
  split; [apply detectConflicts_connected|].
  split; [apply detectConflicts_connected|].
  simpl. split; intros event Hin;
    apply kept_inv in Hin as (E & HE & <- & Hp);
    rewrite and_request in Hp;
    apply andb_true_iff in Hp as [Hp Hex];
    apply andb_true_iff in Hp as [H1 H2]; apply Z.leb_le in H1, H2.
  - apply (In_kept _ _ _ HE). rewrite and_request, Hex, andb_true_r.
    apply andb_true_iff. split; apply Z.leb_le; lia.
  - simpl. lia.
Qed.

End ConflictExtras.

(* ================================================================== *)
(** ** More about the agent graph and the catalog *)

Section AgentExtras.
Context {locale : Locale} {host : Host} {storage : Tools.Storage}
        {provider : Agent.Provider}.

Lemma conflict_node_reads state db :
  snd (Agent.checkConflicts state db) = db.
Proof.
  unfold Agent.checkConflicts.
  destruct (Agent.pendingEventCheck state) as [pending|]; [|reflexivity].
  destruct db as [rows|error]; reflexivity.
Qed.

(** X9.  A failure of the reasoning service is not caught: whenever the
    graph enters [agent] and the model raises an [Error] object, the run
    raises that error, and the storage is as it was. *)
Theorem model_failure_ends_turn fuel state db message :
  Agent.modelWithTools_invoke (Agent.messages state)
    = Js.Throw (Js.Error message) ->
  Agent.run (S fuel) Agent.agent state db
    = (Js.Throw (Js.Error message), db).
Proof.
  intros Hreply. simpl Agent.run. unfold bind at 1.
  now rewrite (agent_step_throws _ db (Js.Error message)) by exact Hreply.
Qed.

(** X10.  Read on a state that ends with the model's message, before the
    tool results are appended, [shouldCheckConflicts] answers
    ['conflict_detector'] if and only if one of the calls names
    [check_event_conflicts]. *)
Theorem router_reads_calls state content calls :
  Agent.last_message (Agent.messages state)
    = Some (Agent.AIMessage content calls) ->
  (Agent.shouldCheckConflicts state = Agent.branch_conflict_detector <->
   Spec.names_conflict_check calls).
Proof.
  intros Hlast. unfold Agent.shouldCheckConflicts. rewrite Hlast. simpl.
  rewrite <- existsb_conflict_check.
  destruct (existsb Agent.is_conflict_check calls); split;
    congruence || discriminate.
Qed.

(** X11.  Only the tools write to the storage: a step of [agent] or of
    [conflict_detector] leaves the storage as it found it, whether it
    returns or raises. *)
Theorem only_tools_write state db :
  snd (Agent.step Agent.agent state db) = db /\
  snd (Agent.step Agent.conflict_detector state db) = db.
Proof.
  split.
  - destruct (Agent.modelWithTools_invoke (Agent.messages state))
      as [reply|e] eqn:Hreply.
    + now rewrite (agent_step _ db reply).
    + now rewrite (agent_step_throws _ db e).
  - unfold Agent.step, bind. simpl Agent.run_node.
    pose proof (conflict_node_reads state db) as Hreads.
    destruct (Agent.checkConflicts state db) as [[update|e] db1];
      simpl in *; exact Hreads.
Qed.

(** X12.  Every tool of the catalog is the one its name resolves to: the
    fifteen names are different, and looking a tool up by its name, as the
    dispatch does, finds that tool. *)
Theorem catalog_resolves_names :
  NoDup (map Tools.name Tools.allTools) /\
  Forall (fun tool =>
            find (fun t => (Tools.name t =? Tools.name tool)%string)
                 Tools.allTools = Some tool)
         Tools.allTools.
Proof.
  split.
  - simpl. repeat (constructor; [simpl; intuition discriminate|]).
    constructor.
  - unfold Tools.allTools. repeat (constructor; [reflexivity|]).
    constructor.
Qed.

(** X13.  The conflict tool only reads: whatever its input, and whether
    the check succeeds or fails, the storage is the same afterwards. *)
Theorem conflict_tool_only_reads (input : Tools.CheckArgs.t) db :
  snd (Tools.checkEventConflicts_func input db) = db.
Proof. now rewrite checkEventConflicts_func_total. Qed.

(** X14.  The conflict tool accepts exactly the arguments in which
    startTime and endTime are texts and excludeEventId is absent or a
    number, and reads its input off them unchanged. *)
Theorem conflict_tool_accepts (args : Json.object)
    (input : Tools.CheckArgs.t) :
  Tools.checkEventConflicts_parse args = Some input <->
  Json.get "startTime" args
    = Some (Json.str (Tools.CheckArgs.startTime input)) /\
  Json.get "endTime" args
    = Some (Json.str (Tools.CheckArgs.endTime input)) /\
  match Json.get "excludeEventId" args with
  | None => Tools.CheckArgs.excludeEventId input = None
  | Some (Json.num n) => Tools.CheckArgs.excludeEventId input = Some n
  | Some _ => False
  end.
Proof.
  unfold Tools.checkEventConflicts_parse, Zod.object_ok,
    Tools.checkEventConflicts_schema, Zod.field_ok. simpl.
  destruct input as [start_ end_ excl]. simpl.
  destruct (Json.get "startTime" args) as [[s1|n1|b1]|];
    destruct (Json.get "endTime" args) as [[s2|n2|b2]|];
    destruct (Json.get "excludeEventId" args) as [[s3|n3|b3]|]; simpl;
    (split;
     [ intros H; try discriminate H; inversion H; subst; auto
     | intros (H1 & H2 & H3);
       try discriminate H1; try discriminate H2; try contradiction H3;
       inversion H1; inversion H2; subst; reflexivity ]).
Qed.

End AgentExtras.

(* ================================================================== *)
(** ** The tools of the events table *)

Lemma filter_all {A : Type} (p : A -> bool) (l : list A) :
  (forall x, p x = true) -> filter p l = l.
Proof.
  intros Hp. induction l as [|x l IH]; simpl; [reflexivity|].
  now rewrite Hp, IH.
Qed.

Lemma filter_all_in {A : Type} (p : A -> bool) (l : list A) :
  (forall x, In x l -> p x = true) -> filter p l = l.
Proof.
  induction l as [|x l IH]; intros Hp; simpl; [reflexivity|].
  rewrite (Hp x) by now left. rewrite IH; [reflexivity|].
  intros y Hy. apply Hp. now right.
Qed.

Lemma snd_try_catch {A : Type} (body : Db A) (handler : Js.exn -> A) db :
  snd (try_catch body handler db) = snd (body db).
Proof. unfold try_catch. destruct (body db) as [[a|e] db']; reflexivity. Qed.

(** The first character of a number's text is a digit or the sign. *)
Lemma number_text_head n :
  exists c rest,
    EventTools.number_text n = String c rest /\ c <> "N"%char.
Proof.
  unfold EventTools.number_text.
  destruct (Z.to_int n) as [d|d]; simpl.
  - destruct d; simpl; eexists _, _; (split; [reflexivity|discriminate]).
  - eexists _, _. split; [reflexivity|discriminate].
Qed.

(** Insertion sort orders as asked. *)
Lemma insert_permutation row sorted :
  Permutation (row :: sorted) (Week.insert row sorted).
Proof.
  induction sorted as [|first rest IH]; simpl; [reflexivity|].
  destruct (Schema.startTime row <? Schema.startTime first)%Z.
  - reflexivity.
  - rewrite perm_swap. now apply perm_skip.
Qed.

Lemma insert_sorted row sorted :
  StronglySorted (fun a b => (Schema.startTime a <= Schema.startTime b)%Z)
                 sorted ->
  StronglySorted (fun a b => (Schema.startTime a <= Schema.startTime b)%Z)
                 (Week.insert row sorted).
Proof.
  induction sorted as [|first rest IH]; intros Hsorted; simpl.
  - constructor; constructor.
  - apply StronglySorted_inv in Hsorted as [Hrest Hfirst].
    destruct (Schema.startTime row <? Schema.startTime first)%Z eqn:Hlt.
    + apply Z.ltb_lt in Hlt. constructor.
      * now constructor.
      * constructor; [lia|].
        eapply Forall_impl; [|exact Hfirst]. simpl. intros a Ha. lia.
    + apply Z.ltb_ge in Hlt. constructor; [now apply IH|].
      eapply Permutation_Forall; [apply insert_permutation|].
      constructor; assumption.
Qed.

Lemma Week_ordering_sorts : EventTools.sorts Week.ordering.
Proof.
  intros rows. simpl. unfold Week.sort.
  induction rows as [|row rows [IHp IHs]]; simpl.
  - split; constructor.
  - split.
    + rewrite <- insert_permutation. now apply perm_skip.
    + now apply insert_sorted.
Qed.

Section EventToolFacts.
Context {locale : Locale} {host : Host} {text : DateText}
        {ordering : Ordering}.

(** The rows [list_events] reads from a storage that answers, for filters
    that are absent, empty or dates. *)
Lemma listEvents_result_connected input rows from to :
  EventTools.bound (EventTools.ListArgs.startDate input) = Js.Ok from ->
  EventTools.bound (EventTools.ListArgs.endDate input) = Js.Ok to ->
  EventTools.listEvents_result input (Connected rows) =
  (Js.Ok (orderBy_startTime
            (filter (EventTools.within from to
                       (EventTools.ListArgs.eventTypeId input)) rows)),
   Connected rows).
Proof.
  destruct input as [start_ end_ type_]. simpl.
  unfold EventTools.listEvents_result, EventTools.listEvents_conditions,
    EventTools.bound, Tools.new_Date.
  intros Hfrom Hto.
  destruct start_ as [[|c1 r1]|]; simpl in *;
    [ | destruct (Date_parse (String c1 r1)) | ]; inversion Hfrom; subst;
    (destruct end_ as [[|c2 r2]|]; simpl in *;
     [ | destruct (Date_parse (String c2 r2)) | ]; inversion Hto; subst);
    (destruct type_ as [t|]; [destruct (t =? 0)%Z eqn:Ht|]);
    unfold bind, ret, EventTools.select_events_ordered; simpl;
    rewrite ?Ht; simpl;
    do 3 f_equal;
    try (symmetry; apply filter_all; intros row;
         unfold EventTools.within; simpl; rewrite ?Ht; reflexivity);
    apply filter_ext; intros row;
    unfold EventTools.and_, EventTools.within, EventTools.gte,
      EventTools.lte, EventTools.eq_; simpl; rewrite ?Ht; simpl;
    repeat match goal with
           | |- context [ (?a <=? ?b)%Z ] => destruct (a <=? b)%Z
           | |- context [ (?a =? ?b)%Z ] => destruct (a =? b)%Z
           end; reflexivity.
Qed.

Lemma listEvents_try_reads input db :
  snd (EventTools.listEvents_try input db) = db.
Proof.
  destruct input as [start_ end_ type_].
  unfold EventTools.listEvents_try, EventTools.listEvents_result,
    EventTools.listEvents_conditions, Tools.new_Date. simpl.
  destruct start_ as [[|c1 r1]|]; simpl;
    [ | destruct (Date_parse (String c1 r1)) | ];
    (destruct end_ as [[|c2 r2]|]; simpl;
     [ | destruct (Date_parse (String c2 r2)) | ]);
    unfold bind, ret, throw, EventTools.select_events_ordered; simpl;
    try reflexivity;
    destruct db as [rows|error]; simpl; try reflexivity;
    match goal with
    | |- context [ (List.length ?l =? 0)%nat ] =>
        destruct (List.length l =? 0)%nat; reflexivity
    end.
Qed.

Lemma deleteEvent_connected eventId rows :
  EventTools.deleteEvent_func eventId (Connected rows) =
  (Js.Ok ("Event " ++ EventTools.number_text eventId
                   ++ " deleted successfully"),
   Connected (filter (fun row => negb (Schema.id row =? eventId)%Z) rows)).
Proof. reflexivity. Qed.

Lemma deleteEvent_unavailable eventId error :
  EventTools.deleteEvent_func eventId (Unavailable error) =
  (Js.Ok (Tools.catch_as "Error deleting event" error), Unavailable error).
Proof. reflexivity. Qed.

(** Checking with an exclusion is checking the rows without the excluded
    identifier. *)
Lemma kept_without s e x rows :
  x <> 0%Z ->
  Spec.kept (Spec.request s e (Some x)) rows =
  Spec.kept (Spec.request s e None)
            (filter (fun row => negb (Schema.id row =? x)%Z) rows).
Proof.
  intros Hx. unfold Spec.kept.
  apply Z.eqb_neq in Hx.
  induction rows as [|row rows IH]; [reflexivity|].
  cbn [filter]. destruct (Schema.id row =? x)%Z eqn:Hid; cbn [negb filter].
  - rewrite and_request. cbn [Spec.excludes Js.truthy_number].
    rewrite Hx, Hid. cbn [negb andb]. rewrite andb_false_r. exact IH.
  - rewrite !and_request. cbn [Spec.excludes Js.truthy_number].
    rewrite Hx, Hid. cbn [negb andb].
    destruct ((s <=? Schema.endTime row)%Z && (Schema.startTime row <=? e)%Z);
      cbn [andb map]; now rewrite IH.
Qed.

Lemma get_strip fields input key :
  existsb (fun f => (Zod.key f =? key)%string) fields = true ->
  Json.get key (Zod.strip fields input) = Json.get key input.
Proof.
  intros Hkey. unfold Zod.strip.
  induction input as [|[k v] input IH]; [reflexivity|].
  cbn [filter Json.get fst].
  destruct (k =? key)%string eqn:Hk.
  - apply String.eqb_eq in Hk. subst k. rewrite Hkey.
    cbn [Json.get]. now rewrite String.eqb_refl.
  - destruct (existsb (fun f => (Zod.key f =? k)%string) fields);
      cbn [Json.get]; [rewrite Hk|]; exact IH.
Qed.

End EventToolFacts.

Section EventToolExtras.
Context {locale : Locale} {host : Host} {text : DateText}
        {ordering : Ordering}.

Lemma listEvents_func_connected input rows from to :
  EventTools.bound (EventTools.ListArgs.startDate input) = Js.Ok from ->
  EventTools.bound (EventTools.ListArgs.endDate input) = Js.Ok to ->
  EventTools.listEvents_func input (Connected rows) =
  (Js.Ok
     match orderBy_startTime
             (filter (EventTools.within from to
                        (EventTools.ListArgs.eventTypeId input)) rows) with
     | [] => "No events found"
     | first :: rest =>
         String.concat Js.newline
                       (map EventTools.event_line (first :: rest))
     end,
   Connected rows).
Proof.
  intros Hfrom Hto. unfold EventTools.listEvents_func.
  apply try_catch_Ok. unfold EventTools.listEvents_try.
  rewrite (bind_Ok _ _ _ _ _
             (listEvents_result_connected input rows from to Hfrom Hto)).
  destruct (orderBy_startTime _); reflexivity.
Qed.

Lemma listing_is_not_the_empty_text first rest :
  String.concat Js.newline (map EventTools.event_line (first :: rest))
  <> "No events found".
Proof.
  assert (exists c tail,
             EventTools.event_line first = String c tail /\ c <> "N"%char)
    as (c & tail & Hline & Hc).
  { unfold EventTools.event_line.
    destruct (number_text_head (Schema.id first)) as (c & r & -> & Hc).
    simpl. eauto. }
  simpl. rewrite Hline.
  destruct (map EventTools.event_line rest); simpl; congruence.
Qed.

(** X15.  From a storage that sorts as asked, [list_events] reads exactly
    the stored events that lie within the window: they start at or after
    startDate, end at or before endDate and are of the type eventTypeId,
    each filter counting only when it is given and neither empty nor 0;
    the events come by ascending start. *)
Theorem listEvents_reads_the_window input rows from to :
  EventTools.sorts ordering ->
  EventTools.bound (EventTools.ListArgs.startDate input) = Js.Ok from ->
  EventTools.bound (EventTools.ListArgs.endDate input) = Js.Ok to ->
  exists result,
    EventTools.listEvents_result input (Connected rows)
      = (Js.Ok result, Connected rows) /\
    (forall row,
        In row result <->
        In row rows /\
        EventTools.within from to (EventTools.ListArgs.eventTypeId input) row
          = true) /\
    StronglySorted
      (fun a b => (Schema.startTime a <= Schema.startTime b)%Z) result.
Proof.
  intros Hsorts Hfrom Hto. eexists.
  split; [apply (listEvents_result_connected _ _ _ _ Hfrom Hto)|].
  destruct (Hsorts (filter (EventTools.within from to
                              (EventTools.ListArgs.eventTypeId input)) rows))
    as [Hperm Hsorted].
  split; [|exact Hsorted].
  intros row. rewrite <- filter_In. split; intros Hin.
  - eapply Permutation_in; [symmetry; exact Hperm | exact Hin].
  - eapply Permutation_in; [exact Hperm | exact Hin].
Qed.

(** X16.  [list_events] answers "No events found" if and only if no
    stored event lies within the window. *)
Theorem listEvents_none_found input rows from to :
  EventTools.sorts ordering ->
  EventTools.bound (EventTools.ListArgs.startDate input) = Js.Ok from ->
  EventTools.bound (EventTools.ListArgs.endDate input) = Js.Ok to ->
  (EventTools.listEvents_func input (Connected rows)
     = (Js.Ok "No events found", Connected rows) <->
   forall row, In row rows ->
     EventTools.within from to (EventTools.ListArgs.eventTypeId input) row
       = false).
Proof.
  intros Hsorts Hfrom Hto.
  rewrite (listEvents_func_connected _ _ _ _ Hfrom Hto).
  destruct (Hsorts (filter (EventTools.within from to
                              (EventTools.ListArgs.eventTypeId input)) rows))
    as [Hperm _].
  destruct (orderBy_startTime _) as [|first rest] eqn:Hordered.
  - apply Permutation_sym, Permutation_nil in Hperm.
    split; [|reflexivity].
    intros _ row Hin.
    destruct (EventTools.within from to _ row) eqn:Hw; [|reflexivity].
    assert (In row []) as Hnil
      by (rewrite <- Hperm; apply filter_In; now split).
    contradiction.
  - split.
    + intros H. inversion H as [Htext].
      now apply listing_is_not_the_empty_text in Htext.
    + intros Hnone.
      assert (In first (filter (EventTools.within from to
                 (EventTools.ListArgs.eventTypeId input)) rows)) as Hin
        by (eapply Permutation_in; [symmetry; exact Hperm | now left]).
      apply filter_In in Hin as [Hin Hw].
      rewrite (Hnone first Hin) in Hw. discriminate.
Qed.

(** X17.  [list_events] only reads: whatever its input, and whether it
    answers a listing or an error, the storage is the same afterwards. *)
Theorem listEvents_only_reads (input : EventTools.ListArgs.t) db :
  snd (EventTools.listEvents_func input db) = db.
Proof.
  unfold EventTools.listEvents_func. rewrite snd_try_catch.
  apply listEvents_try_reads.
Qed.

(** X18.  Every event that [list_events] reads for a window and that ends
    no earlier than it starts is a conflict for the same range: what lies
    within a range overlaps it. *)
Theorem listed_events_are_conflicts input rows (s e : Date) :
  EventTools.sorts ordering ->
  EventTools.bound (EventTools.ListArgs.startDate input) = Js.Ok (Some s) ->
  EventTools.bound (EventTools.ListArgs.endDate input) = Js.Ok (Some e) ->
  exists result out,
    EventTools.listEvents_result input (Connected rows)
      = (Js.Ok result, Connected rows) /\
    Conflict.detectConflicts s e None (Connected rows)
      = (Js.Ok out, Connected rows) /\
    forall row,
      In row result ->
      (Schema.startTime row <= Schema.endTime row)%Z ->
      In (Conflict.select row) (Conflict.Out.conflicts out).
Proof.
  intros Hsorts Hfrom Hto. eexists _, _.
  split; [apply (listEvents_result_connected _ _ _ _ Hfrom Hto)|].
  split; [apply detectConflicts_connected|].
  simpl. intros row Hin Hrow.
  destruct (Hsorts (filter (EventTools.within (Some s) (Some e)
                              (EventTools.ListArgs.eventTypeId input)) rows))
    as [Hperm _].
  eapply Permutation_in in Hin; [|symmetry; exact Hperm].
  apply filter_In in Hin as [Hin Hw].
  apply (In_kept _ _ _ Hin). rewrite and_request. simpl.
  unfold EventTools.within in Hw.
  apply andb_true_iff in Hw as [Hw _].
  apply andb_true_iff in Hw as [H1 H2]. apply Z.leb_le in H1, H2.
  rewrite andb_true_r. apply andb_true_iff. split; apply Z.leb_le; lia.
Qed.

(** X19.  Filters that are absent, empty or 0 do not filter: with no
    startDate or an empty one, no endDate or an empty one, and no
    eventTypeId or 0, [list_events] reads every stored event. *)
Theorem empty_filters_list_everything input rows :
  EventTools.sorts ordering ->
  Js.truthy_string (EventTools.ListArgs.startDate input) = false ->
  Js.truthy_string (EventTools.ListArgs.endDate input) = false ->
  Js.truthy_number (EventTools.ListArgs.eventTypeId input) = false ->
  exists result,
    EventTools.listEvents_result input (Connected rows)
      = (Js.Ok result, Connected rows) /\
    Permutation rows result.
Proof.
  intros Hsorts Hstart Hend Htype.
  assert (EventTools.bound (EventTools.ListArgs.startDate input)
          = Js.Ok None) as Hfrom
    by (destruct (EventTools.ListArgs.startDate input) as [[|c r]|];
        simpl in *; congruence).
  assert (EventTools.bound (EventTools.ListArgs.endDate input)
          = Js.Ok None) as Hto
    by (destruct (EventTools.ListArgs.endDate input) as [[|c r]|];
        simpl in *; congruence).
  eexists. split; [apply (listEvents_result_connected _ _ _ _ Hfrom Hto)|].
  rewrite filter_all; [apply Hsorts|].
  intros row. unfold EventTools.within.
  destruct (EventTools.ListArgs.eventTypeId input) as [t|]; [|reflexivity].
  simpl in Htype. apply negb_false_iff in Htype. now rewrite Htype.
Qed.

(** X20.  [delete_event] removes the stored events of the identifier and
    no other, and answers that the event was deleted whether or not there
    was one: when no stored event has the identifier, the storage is
    unchanged and the answer is the same. *)
Theorem deleteEvent_removes_the_event (eventId : Z) rows :
  exists rows',
    EventTools.deleteEvent_func eventId (Connected rows)
      = (Js.Ok ("Event " ++ EventTools.number_text eventId
                         ++ " deleted successfully"),
         Connected rows') /\
    (forall E, In E rows' <-> In E rows /\ Schema.id E <> eventId) /\
    ((forall E, In E rows -> Schema.id E <> eventId) -> rows' = rows).
Proof.
  eexists. split; [apply deleteEvent_connected|]. split.
  - intros E. rewrite filter_In, negb_true_iff, Z.eqb_neq. reflexivity.
  - intros Hnone. apply filter_all_in. intros E HE.
    apply negb_true_iff, Z.eqb_neq. now apply Hnone.
Qed.

(** X21.  Deleting twice is deleting once: a second [delete_event] of the
    same identifier gives the answer of the first and leaves the storage
    as the first left it. *)
Theorem deleteEvent_twice (eventId : Z) db :
  EventTools.deleteEvent_func eventId
    (snd (EventTools.deleteEvent_func eventId db))
  = EventTools.deleteEvent_func eventId db.
Proof.
  destruct db as [rows|error]; [|reflexivity].
  rewrite !deleteEvent_connected. cbn [snd].
  rewrite deleteEvent_connected. do 2 f_equal.
  apply filter_all_in. intros E HE. apply filter_In in HE as [_ HE].
  exact HE.
Qed.

(** X22.  Excluding an event from the check is checking as if it had been
    deleted: for an identifier other than 0, the result of the check with
    that exclusion is the result of the check without exclusion on the
    storage that [delete_event] leaves. *)
Theorem exclusion_is_deletion rows (s e : Date) (excluded : Z) :
  excluded <> 0%Z ->
  exists out text rows',
    Conflict.detectConflicts s e (Some excluded) (Connected rows)
      = (Js.Ok out, Connected rows) /\
    EventTools.deleteEvent_func excluded (Connected rows)
      = (Js.Ok text, Connected rows') /\
    Conflict.detectConflicts s e None (Connected rows')
      = (Js.Ok out, Connected rows').
Proof.
  intros Hx. eexists _, _, _.
  split; [apply detectConflicts_connected|].
  split; [apply deleteEvent_connected|].
  rewrite detectConflicts_connected, (kept_without _ _ _ _ Hx).
  reflexivity.
Qed.

(** X23.  Through the catalog, with these [try] blocks as its storage, a
    [delete_event] call whose eventId is a number deletes that event, and
    a call without a numeric eventId is refused before anything is
    deleted. *)
Theorem delete_event_call (storage : Tools.Storage) (args : Json.object)
    rows :
  Tools.invoke
    (Tools.deleteEvent (storage := EventTools.with_event_tools storage))
    args (Connected rows)
  = match Json.get "eventId" args with
    | Some (Json.num eventId) =>
        EventTools.deleteEvent_func eventId (Connected rows)
    | _ => (Js.Throw ToolInputParsingException, Connected rows)
    end.
Proof.
  unfold Tools.invoke, Tools.deleteEvent, Tools.object_tool.
  cbn [Tools.parse Tools.func Zod.object_ok forallb].
  unfold Zod.field_ok. cbn [Zod.required Zod.key Zod.type_ Zod.optional].
  destruct (Json.get "eventId" args) as [[s1|eventId|b]|] eqn:Hget;
    cbn [Zod.accepts andb]; try reflexivity.
  cbn [Tools.try_deleteEvent EventTools.with_event_tools].
  rewrite get_strip by reflexivity. rewrite Hget. reflexivity.
Qed.

End EventToolExtras.

(* ================================================================== *)
(** ** The week, evaluated *)

(** A (10:00 to 11:00) and B (11:00 to 12:00) touch: each is a conflict
    for the other. *)
Lemma conflicts_are_mutual_witness :
  In Scenario.A Week.rows /\
  In Week.B Week.rows /\
  exists for_b for_a,
    Scenario.detectConflicts (Schema.startTime Week.B)
        (Schema.endTime Week.B) None Week.calendar
      = (Js.Ok for_b, Week.calendar) /\
    Scenario.detectConflicts (Schema.startTime Scenario.A)
        (Schema.endTime Scenario.A) None Week.calendar
      = (Js.Ok for_a, Week.calendar) /\
    (In (Conflict.select Scenario.A) (Conflict.Out.conflicts for_b) <->
     In (Conflict.select Week.B) (Conflict.Out.conflicts for_a)).
Proof.
  split; [right; left; reflexivity|]. split; [left; reflexivity|].
  apply (conflicts_are_mutual (locale := Scenario.locale)
           Week.rows Week.rows Scenario.A Week.B).
  - right; left; reflexivity.
  - left; reflexivity.
Defined.

(** 10:30 to 10:40 within 10:00 to 11:40. *)
Lemma wider_range_keeps_conflicts_witness :
  (600 <= 630)%Z /\ (640 <= 700)%Z /\
  exists out out',
    Scenario.detectConflicts 630%Z 640%Z None Week.calendar
      = (Js.Ok out, Week.calendar) /\
    Scenario.detectConflicts 600%Z 700%Z None Week.calendar
      = (Js.Ok out', Week.calendar) /\
    incl (Conflict.Out.conflicts out) (Conflict.Out.conflicts out').
Proof.
  split; [lia|]. split; [lia|].
  apply (wider_range_keeps_conflicts (locale := Scenario.locale)
           Week.rows 630%Z 640%Z 600%Z 700%Z None); lia.
Defined.

(** The week checked with A excluded. *)
Lemma exclusion_filters_conflicts_witness :
  1%Z <> 0%Z /\
  exists out_all out,
    Scenario.detectConflicts 600%Z 700%Z None Week.calendar
      = (Js.Ok out_all, Week.calendar) /\
    Scenario.detectConflicts 600%Z 700%Z (Some 1%Z) Week.calendar
      = (Js.Ok out, Week.calendar) /\
    Conflict.Out.conflicts out =
    filter (fun event => negb (Conflict.Event.id event =? 1)%Z)
           (Conflict.Out.conflicts out_all).
Proof.
  split; [discriminate|].
  apply (exclusion_filters_conflicts (locale := Scenario.locale)
           Week.rows 600%Z 700%Z 1%Z).
  discriminate.
Defined.

(** The range from 10:50 back to 10:10: A spans it, the instant C does
    not. *)
Lemma inverted_range_under_reports_witness :
  (610 < 650)%Z /\
  exists out swapped,
    Scenario.detectConflicts 650%Z 610%Z None Week.calendar
      = (Js.Ok out, Week.calendar) /\
    Scenario.detectConflicts 610%Z 650%Z None Week.calendar
      = (Js.Ok swapped, Week.calendar) /\
    incl (Conflict.Out.conflicts out) (Conflict.Out.conflicts swapped) /\
    forall event, In event (Conflict.Out.conflicts out) ->
      (Conflict.Event.startTime event <= 610 /\
       650 <= Conflict.Event.endTime event)%Z.
Proof.
  split; [lia|].
  apply (inverted_range_under_reports (locale := Scenario.locale)
           Week.rows 650%Z 610%Z None).
  lia.
Defined.

(** What the two checks of that range report. *)
Example inverted_range_in_the_week :
  fst (Scenario.detectConflicts 650%Z 610%Z None Week.calendar)
    = Js.Ok {| Conflict.Out.conflicts := [ Conflict.select Scenario.A ];
               Conflict.Out.hasConflicts := true;
               Conflict.Out.message :=
                 Spec.rendered (locale := Scenario.locale)
                   [ Conflict.select Scenario.A ] |} /\
  fst (Scenario.detectConflicts 610%Z 650%Z None Week.calendar)
    = Js.Ok {| Conflict.Out.conflicts :=
                 [ Conflict.select Scenario.A; Conflict.select Week.C ];
               Conflict.Out.hasConflicts := true;
               Conflict.Out.message :=
                 Spec.rendered (locale := Scenario.locale)
                   [ Conflict.select Scenario.A; Conflict.select Week.C ] |}.
Proof. split; reflexivity. Qed.

(** A service that is down fails the turn with its error. *)
Lemma model_failure_ends_turn_witness :
  Agent.modelWithTools_invoke (Provider := Week.down)
      (Agent.messages Scenario.initial)
    = Js.Throw (Js.Error "503 Service Unavailable") /\
  Agent.run (locale := Scenario.locale) (host := Scenario.host)
      (storage := Scenario.storage) (provider := Week.down)
      25 Agent.agent Scenario.initial Week.calendar
  = (Js.Throw (Js.Error "503 Service Unavailable"), Week.calendar).
Proof.
  split; [reflexivity|].
  apply (model_failure_ends_turn (locale := Scenario.locale)
           (host := Scenario.host) (storage := Scenario.storage)
           (provider := Week.down) 24 Scenario.initial Week.calendar).
  reflexivity.
Defined.

(** Before the tools run, the router sees the conflict-check call. *)
Lemma router_reads_calls_witness :
  Agent.last_message (Agent.messages Scenario.asked)
    = Some (Agent.AIMessage EmptyString [ Scenario.check_call ]) /\
  (Agent.shouldCheckConflicts Scenario.asked
     = Agent.branch_conflict_detector <->
   Spec.names_conflict_check [ Scenario.check_call ]).
Proof.
  split; [reflexivity|].
  apply (router_reads_calls Scenario.asked EmptyString
           [ Scenario.check_call ]).
  reflexivity.
Defined.

(** The morning of the week: A and the instant C lie within 10:00 to
    11:00, B does not. *)
Lemma listEvents_reads_the_window_witness :
  EventTools.sorts Week.ordering /\
  exists result,
    Week.listEvents_result Week.morning Week.calendar
      = (Js.Ok result, Week.calendar) /\
    (forall row,
        In row result <->
        In row Week.rows /\
        EventTools.within (Some 600%Z) (Some 660%Z) None row = true) /\
    StronglySorted
      (fun a b => (Schema.startTime a <= Schema.startTime b)%Z) result.
Proof.
  split; [exact Week_ordering_sorts|].
  apply (listEvents_reads_the_window (host := Scenario.host)
           (ordering := Week.ordering) Week.morning Week.rows
           (Some 600%Z) (Some 660%Z)).
  - exact Week_ordering_sorts.
  - reflexivity.
  - reflexivity.
Defined.

Example morning_listing :
  Week.listEvents_func Week.morning Week.calendar
  = (Js.Ok ("1: A | 600 to 660" ++ Js.newline ++ "3: C | 630 to 630"),
     Week.calendar).
Proof. reflexivity. Qed.

(** No event of the week is of type 7. *)
Lemma listEvents_none_found_witness :
  EventTools.sorts Week.ordering /\
  (Week.listEvents_func
     {| EventTools.ListArgs.startDate := None;
        EventTools.ListArgs.endDate := Some EmptyString;
        EventTools.ListArgs.eventTypeId := Some 7%Z |} Week.calendar
     = (Js.Ok "No events found", Week.calendar) <->
   forall row, In row Week.rows ->
     EventTools.within None None (Some 7%Z) row = false).
Proof.
  split; [exact Week_ordering_sorts|].
  apply (listEvents_none_found (host := Scenario.host) (text := Week.text)
           (ordering := Week.ordering)
           {| EventTools.ListArgs.startDate := None;
              EventTools.ListArgs.endDate := Some EmptyString;
              EventTools.ListArgs.eventTypeId := Some 7%Z |}
           Week.rows None None).
  - exact Week_ordering_sorts.
  - reflexivity.
  - reflexivity.
Defined.

(** The events listed for the morning are conflicts for the morning. *)
Lemma listed_events_are_conflicts_witness :
  EventTools.sorts Week.ordering /\
  exists result out,
    Week.listEvents_result Week.morning Week.calendar
      = (Js.Ok result, Week.calendar) /\
    Scenario.detectConflicts 600%Z 660%Z None Week.calendar
      = (Js.Ok out, Week.calendar) /\
    forall row,
      In row result ->
      (Schema.startTime row <= Schema.endTime row)%Z ->
      In (Conflict.select row) (Conflict.Out.conflicts out).
Proof.
  split; [exact Week_ordering_sorts|].
  apply (listed_events_are_conflicts (locale := Scenario.locale)
           (host := Scenario.host) (ordering := Week.ordering)
           Week.morning Week.rows 600%Z 660%Z).
  - exact Week_ordering_sorts.
  - reflexivity.
  - reflexivity.
Defined.

(** An empty startDate and the type 0 list the whole week. *)
Lemma empty_filters_list_everything_witness :
  EventTools.sorts Week.ordering /\
  exists result,
    Week.listEvents_result
      {| EventTools.ListArgs.startDate := Some EmptyString;
         EventTools.ListArgs.endDate := None;
         EventTools.ListArgs.eventTypeId := Some 0%Z |} Week.calendar
      = (Js.Ok result, Week.calendar) /\
    Permutation Week.rows result.
Proof.
  split; [exact Week_ordering_sorts|].
  apply (empty_filters_list_everything (host := Scenario.host)
           (ordering := Week.ordering)
           {| EventTools.ListArgs.startDate := Some EmptyString;
              EventTools.ListArgs.endDate := None;
              EventTools.ListArgs.eventTypeId := Some 0%Z |} Week.rows).
  - exact Week_ordering_sorts.
  - reflexivity.
  - reflexivity.
  - reflexivity.
Defined.

(** Checking the week with A excluded, and after A was deleted. *)
Lemma exclusion_is_deletion_witness :
  1%Z <> 0%Z /\
  exists out text rows',
    Scenario.detectConflicts 600%Z 700%Z (Some 1%Z) Week.calendar
      = (Js.Ok out, Week.calendar) /\
    EventTools.deleteEvent_func 1%Z Week.calendar
      = (Js.Ok text, Connected rows') /\
    Scenario.detectConflicts 600%Z 700%Z None (Connected rows')
      = (Js.Ok out, Connected rows').
Proof.
  split; [discriminate|].
  apply (exclusion_is_deletion (locale := Scenario.locale)
           Week.rows 600%Z 700%Z 1%Z).
  discriminate.
Defined.

(** X24.  The conflict step without a pending request reads nothing and
    cannot fail: it writes [null] over the conflict result, whatever it
    held, and goes back to [agent], also when the storage is down.  With
    a pending request and a storage that is down it raises the storage's
    error. *)
Theorem conflict_step_without_request
    {locale : Locale} {host : Host} {storage : Tools.Storage}
    {provider : Agent.Provider} (messages : list Agent.BaseMessage)
    (previous : option string) (pending : Agent.Pending.t) db error :
  Agent.step Agent.conflict_detector
    {| Agent.messages := messages;
       Agent.pendingEventCheck := None;
       Agent.conflictCheckResult := previous |} db
  = (Js.Ok (Agent.goto Agent.agent,
            {| Agent.messages := messages;
               Agent.pendingEventCheck := None;
               Agent.conflictCheckResult := None |}), db) /\
  Agent.step Agent.conflict_detector
    {| Agent.messages := messages;
       Agent.pendingEventCheck := Some pending;
       Agent.conflictCheckResult := previous |} (Unavailable error)
  = (Js.Throw error, Unavailable error).
Proof.
  split.
  - unfold Agent.step, bind. simpl. unfold Agent.apply. simpl.
    now rewrite app_nil_r.
  - reflexivity.
Qed.
